(** * Block-oriented data streams ([core/data_stream.py])

    A shallow embedding of the stream classes of [core/data_stream.py]:
    the abstract [DataStream] with its derived block operations, the
    in-memory [ListDataStream], the file-backed [FileDataStream] and
    [TextFileDataStream], and the empty [Uint8FileDataStream].

    Python objects are mutable, and an exception leaves every mutation made
    before it in place, so a method is a function from the state of the
    object (and, for files, of the file system) to an outcome and a new
    state. *)

From Stdlib Require Import ZArith String Ascii List Bool Lia.
Import ListNotations.

Set Implicit Arguments.

(** ** Python values, exceptions and outcomes *)

(** [Symbol = typing.Any]: the values that flow through a stream.  [None]
    is a value like any other, and it is also what [get_symbol] and
    [get_block] return at the end of the stream. *)
Inductive Symbol : Type :=
| PyNone
| PyInt (z : Z)
| PyStr (s : string)
| PyBytes (s : string).

(** [s is None] *)
Definition is_None (s : Symbol) : bool :=
  match s with
  | PyNone => true
  | _ => false
  end.

(** The exceptions the modelled code can raise. *)
Inductive PyExc : Type :=
| AttributeError        (* attribute [file_obj] read before it is set *)
| ValueError            (* I/O operation on a closed file, invalid mode *)
| TypeError             (* abstract class instantiated, write of a non-str *)
| IndexError            (* list index out of range *)
| UnsupportedOperation  (* read on a write-only file, write on a read-only one *)
| FileNotFoundError
| FileExistsError
| OSError               (* the device refuses the write *)
| NotImplementedError.  (* raised nowhere in the source *)

Inductive Result (A : Type) : Type :=
| Ok (a : A)
| Raise (e : PyExc).

Arguments Ok {A} a.
Arguments Raise {A} e.

Definition is_Ok {A} (r : Result A) : bool :=
  match r with
  | Ok _ => true
  | Raise _ => false
  end.

(** A method over an object state [St]: the outcome and the state left
    behind, also when the outcome is an exception. *)
Definition M (St A : Type) : Type := St -> Result A * St.

Definition ret {St A} (a : A) : M St A := fun st => (Ok a, st).

Definition raise {St A} (e : PyExc) : M St A := fun st => (Raise e, st).

Definition bind {St A B} (m : M St A) (f : A -> M St B) : M St B :=
  fun st =>
    match m st with
    | (Ok a, st') => f a st'
    | (Raise e, st') => (Raise e, st')
    end.

Declare Scope py_scope.
Delimit Scope py_scope with py.
Notation "x <- m ;; k" := (bind m (fun x => k))
  (at level 61, m at next level, right associativity) : py_scope.
Notation "m ;;; k" := (bind m (fun _ => k))
  (at level 61, right associativity) : py_scope.
Local Open Scope py_scope.

(** ** DataBlock *)

(** Modelled from the spec: [core/data_block.py] is not among the sources.
    A block is built from an ordered sequence of symbols, exposes that
    sequence as [data_list] and its number of symbols as [size]. *)
Record DataBlock : Type := mkDataBlock { data_list : list Symbol }.

Definition size (b : DataBlock) : Z := Z.of_nat (length (data_list b)).

(** ** The abstract class [DataStream] *)

(** The three abstract methods and the two context-manager methods, which
    the subclasses may override.  [__enter__] returns [self], which is the
    state itself here. *)
Class DataStream (St : Type) : Type := {
  reset : M St unit;
  get_symbol : M St Symbol;
  write_symbol : Symbol -> M St unit;
  __enter__ : M St unit;
  __exit__ : M St unit
}.

Section Block_interface.

Context {St : Type} `{DataStream St}.

(** The body of [for _ in range(block_size)] with [k] iterations left and
    [acc] collected so far: [break] as soon as [get_symbol] returns
    [None]. *)
Fixpoint get_block_loop (k : nat) (acc : list Symbol) : M St (list Symbol) :=
  match k with
  | O => ret acc
  | S k' =>
      s <- get_symbol ;;
      if is_None s then ret acc else get_block_loop k' (acc ++ [s])
  end.

(** [DataStream.get_block]: [None] when nothing was collected. *)
Definition get_block (block_size : Z) : M St (option DataBlock) :=
  l <- get_block_loop (Z.to_nat block_size) [] ;;
  match l with
  | [] => ret None
  | _ :: _ => ret (Some (mkDataBlock l))
  end.

(** [for s in data_list: self.write_symbol(s)] *)
Fixpoint write_symbols (l : list Symbol) : M St unit :=
  match l with
  | [] => ret tt
  | s :: l' => write_symbol s ;;; write_symbols l'
  end.

(** [DataStream.write_block] *)
Definition write_block (data_block : DataBlock) : M St unit :=
  write_symbols (data_list data_block).

End Block_interface.

(** ** ListDataStream *)

(** The two attributes of an instance.  [input_list] is the caller's own
    list object, kept by reference; the calls on the stream are the only
    mutations of it that are followed here. *)
Record ListDataStream : Type := mkListDataStream {
  input_list : list Symbol;
  current_ind : Z
}.

(** [l[i]] on a Python list: a negative index counts from the end, an index
    out of range raises [IndexError]. *)
Definition py_getitem (l : list Symbol) (i : Z) : Result Symbol :=
  let n := Z.of_nat (length l) in
  let j := if (i <? 0)%Z then (i + n)%Z else i in
  if ((0 <=? j) && (j <? n))%Z
  then match nth_error l (Z.to_nat j) with
       | Some s => Ok s
       | None => Raise IndexError
       end
  else Raise IndexError.

Module ListStream.

Definition reset : M ListDataStream unit :=
  fun self => (Ok tt, mkListDataStream (input_list self) 0).

(** [ListDataStream.__init__]: the assertion [isinstance(input_list, list)]
    holds by typing; the list is kept and the counter reset. *)
Definition init (l : list Symbol) : ListDataStream :=
  snd (reset (mkListDataStream l 0)).

Definition get_symbol : M ListDataStream Symbol :=
  fun self =>
    if (current_ind self >=? Z.of_nat (length (input_list self)))%Z
    then (Ok PyNone, self)
    else match py_getitem (input_list self) (current_ind self) with
         | Ok s => (Ok s, mkListDataStream (input_list self) (current_ind self + 1))
         | Raise e => (Raise e, self)
         end.

Definition write_symbol (s : Symbol) : M ListDataStream unit :=
  fun self => (Ok tt, mkListDataStream (input_list self ++ [s]) (current_ind self)).

End ListStream.

(** [ListDataStream] inherits [__enter__] and [__exit__] from [DataStream]:
    the first returns [self], the second is [pass]. *)
#[export] Instance ListDataStream_stream : DataStream ListDataStream := {
  reset := ListStream.reset;
  get_symbol := ListStream.get_symbol;
  write_symbol := ListStream.write_symbol;
  __enter__ := ret tt;
  __exit__ := ret tt
}.

(** ** Files: what Python's [open] and its file objects do

    The file system maps a path to the characters of the file.  Contents are
    taken character by character (an encoding that round-trips is assumed).
    A text file is read with universal newlines, as [open] does by default,
    and written with the line feed as it is, as on POSIX systems.  Reads
    and writes take effect at once, which is what one file object at a time
    observes of a buffered file. *)

Record Mode : Type := mkMode {
  creating : bool;
  reading : bool;
  writing : bool;
  appending : bool;
  updating : bool;
  binary : bool
}.

Definition has (c : ascii) (l : list ascii) : bool :=
  existsb (Ascii.eqb c) l.

Fixpoint no_repeat (l : list ascii) : bool :=
  match l with
  | [] => true
  | c :: l' => negb (has c l') && no_repeat l'
  end.

Definition b2n (b : bool) : nat := if b then 1 else 0.

(** The mode check of [open]: only the characters of [axrwb+t], none
    twice, not both [t] and [b], exactly one of [x], [r], [w], [a]. *)
Definition parse_mode (mode : string) : option Mode :=
  let cs := list_ascii_of_string mode in
  let m := mkMode (has "x" cs) (has "r" cs) (has "w" cs) (has "a" cs)
                  (has "+" cs) (has "b" cs) in
  if forallb (fun c => has c (list_ascii_of_string "axrwb+t")) cs
     && no_repeat cs
     && negb (has "t" cs && has "b" cs)
     && Nat.eqb (b2n (creating m) + b2n (reading m) + b2n (writing m)
                 + b2n (appending m)) 1
  then Some m
  else None.

(** A file object. *)
Record FileHandle : Type := mkFileHandle {
  fo_path : string;
  fo_readable : bool;
  fo_writable : bool;
  fo_appending : bool;
  fo_binary : bool;
  fo_pos : nat;
  fo_closed : bool
}.

Inductive Event : Type :=
| EvOpen (h : nat)
| EvClose (h : nat).

Record World : Type := mkWorld {
  files : list (string * list ascii);
  handles : list FileHandle;       (* every file object made so far *)
  write_budget : option nat;       (* writes the device still accepts *)
  trace : list Event               (* acquisitions and releases, in order *)
}.

Fixpoint lookup_file (path : string) (fs : list (string * list ascii))
  : option (list ascii) :=
  match fs with
  | [] => None
  | (p, c) :: fs' => if String.eqb p path then Some c else lookup_file path fs'
  end.

Fixpoint store_file (path : string) (c : list ascii)
  (fs : list (string * list ascii)) : list (string * list ascii) :=
  match fs with
  | [] => [(path, c)]
  | (p, c0) :: fs' =>
      if String.eqb p path then (p, c) :: fs'
      else (p, c0) :: store_file path c fs'
  end.

Definition content (w : World) (path : string) : list ascii :=
  match lookup_file path (files w) with
  | Some c => c
  | None => []
  end.

Fixpoint set_nth {A} (n : nat) (a : A) (l : list A) : list A :=
  match l, n with
  | [], _ => []
  | _ :: l', O => a :: l'
  | x :: l', S n' => x :: set_nth n' a l'
  end.

Definition set_handle (h : nat) (fo : FileHandle) (w : World) : World :=
  mkWorld (files w) (set_nth h fo (handles w)) (write_budget w) (trace w).

Definition set_pos (fo : FileHandle) (p : nat) : FileHandle :=
  mkFileHandle (fo_path fo) (fo_readable fo) (fo_writable fo)
               (fo_appending fo) (fo_binary fo) p (fo_closed fo).

Definition set_closed (fo : FileHandle) : FileHandle :=
  mkFileHandle (fo_path fo) (fo_readable fo) (fo_writable fo)
               (fo_appending fo) (fo_binary fo) (fo_pos fo) true.

(** [open(path, mode)]: the new file object is the next handle. *)
Definition py_open (path mode : string) : M World nat :=
  fun w =>
    match parse_mode mode with
    | None => (Raise ValueError, w)
    | Some m =>
        let h := length (handles w) in
        let present := match lookup_file path (files w) with
                       | Some _ => true
                       | None => false
                       end in
        let made (fs : list (string * list ascii)) (pos : nat) :=
          (Ok h,
           mkWorld fs
             (handles w ++
                [mkFileHandle path (reading m || updating m)
                   (negb (reading m) || updating m)
                   (appending m) (binary m) pos false])
             (write_budget w) (trace w ++ [EvOpen h])) in
        if reading m then
          if present then made (files w) 0 else (Raise FileNotFoundError, w)
        else if writing m then
          made (store_file path [] (files w)) 0
        else if creating m then
          if present then (Raise FileExistsError, w)
          else made (store_file path [] (files w)) 0
        else
          if present then made (files w) (length (content w path))
          else made (store_file path [] (files w)) 0
    end.

Definition chr (c : ascii) : string := String c EmptyString.

Definition CR : ascii := ascii_of_nat 13.
Definition LF : ascii := ascii_of_nat 10.

(** [f.read(1)]: one character, or the empty string at the end of the
    file.  A binary file that cannot be read refuses before it looks at
    anything else; a text file looks at [closed] first and translates
    a carriage return, alone or before a line feed, to a line feed. *)
Definition file_read1 (h : nat) : M World Symbol :=
  fun w =>
    match nth_error (handles w) h with
    | None => (Raise ValueError, w)
    | Some fo =>
        if fo_binary fo && negb (fo_readable fo) then (Raise UnsupportedOperation, w)
        else if fo_closed fo then (Raise ValueError, w)
        else if negb (fo_readable fo) then (Raise UnsupportedOperation, w)
        else
          let c := content w (fo_path fo) in
          match nth_error c (fo_pos fo) with
          | None => (Ok (if fo_binary fo then PyBytes "" else PyStr ""), w)
          | Some a =>
              if fo_binary fo
              then (Ok (PyBytes (chr a)), set_handle h (set_pos fo (S (fo_pos fo))) w)
              else if Ascii.eqb a CR then
                match nth_error c (S (fo_pos fo)) with
                | Some b =>
                    if Ascii.eqb b LF
                    then (Ok (PyStr (chr LF)),
                          set_handle h (set_pos fo (S (S (fo_pos fo)))) w)
                    else (Ok (PyStr (chr LF)),
                          set_handle h (set_pos fo (S (fo_pos fo))) w)
                | None => (Ok (PyStr (chr LF)),
                           set_handle h (set_pos fo (S (fo_pos fo))) w)
                end
              else (Ok (PyStr (chr a)), set_handle h (set_pos fo (S (fo_pos fo))) w)
          end
    end.

(** The characters a file of this kind accepts from [write]. *)
Definition payload (is_binary : bool) (s : Symbol) : option (list ascii) :=
  match s, is_binary with
  | PyStr t, false => Some (list_ascii_of_string t)
  | PyBytes t, true => Some (list_ascii_of_string t)
  | _, _ => None
  end.

(** The content after [data] is written at [pos]: over what is there, and
    beyond the end when it is longer. *)
Definition overwrite (c : list ascii) (pos : nat) (data : list ascii) : list ascii :=
  firstn pos c ++ repeat zero (pos - length c) ++ data ++ skipn (pos + length data) c.

(** [f.write(s)] *)
Definition file_write (h : nat) (s : Symbol) : M World unit :=
  fun w =>
    match nth_error (handles w) h with
    | None => (Raise ValueError, w)
    | Some fo =>
        if fo_binary fo && negb (fo_writable fo) then (Raise UnsupportedOperation, w)
        else
          match payload (fo_binary fo) s with
          | None => (Raise TypeError, w)
          | Some data =>
              if fo_closed fo then (Raise ValueError, w)
              else if negb (fo_writable fo) then (Raise UnsupportedOperation, w)
              else
                match write_budget w with
                | Some O => (Raise OSError, w)
                | budget =>
                    let c := content w (fo_path fo) in
                    let c' := if fo_appending fo then c ++ data
                              else overwrite c (fo_pos fo) data in
                    let pos' := if fo_appending fo then length c'
                                else fo_pos fo + length data in
                    (Ok tt,
                     mkWorld (store_file (fo_path fo) c' (files w))
                       (set_nth h (set_pos fo pos') (handles w))
                       (option_map pred budget) (trace w))
                end
          end
    end.

(** [f.seek(0)] *)
Definition file_seek0 (h : nat) : M World unit :=
  fun w =>
    match nth_error (handles w) h with
    | None => (Raise ValueError, w)
    | Some fo =>
        if fo_closed fo then (Raise ValueError, w)
        else (Ok tt, set_handle h (set_pos fo 0) w)
    end.

(** [f.close()]: closing a closed file is allowed and does nothing more. *)
Definition file_close (h : nat) : M World unit :=
  fun w =>
    match nth_error (handles w) h with
    | None => (Raise ValueError, w)
    | Some fo =>
        (Ok tt,
         mkWorld (files w) (set_nth h (set_closed fo) (handles w))
           (write_budget w) (trace w ++ [EvClose h]))
    end.

(** ** The class table and abstract methods *)

Inductive PyClass : Type :=
| DataStream_cls
| ListDataStream_cls
| FileDataStream_cls
| TextFileDataStream_cls
| Uint8FileDataStream_cls.

Inductive MethodName : Type :=
| m_reset
| m_get_symbol
| m_write_symbol
| m_get_block
| m_write_block
| m_enter
| m_exit
| m_init.

Definition MethodName_eqb (a b : MethodName) : bool :=
  match a, b with
  | m_reset, m_reset | m_get_symbol, m_get_symbol
  | m_write_symbol, m_write_symbol | m_get_block, m_get_block
  | m_write_block, m_write_block | m_enter, m_enter
  | m_exit, m_exit | m_init, m_init => true
  | _, _ => false
  end.

(** The single base class of each class ([abc.ABC] left out). *)
Definition base (c : PyClass) : option PyClass :=
  match c with
  | DataStream_cls => None
  | ListDataStream_cls => Some DataStream_cls
  | FileDataStream_cls => Some DataStream_cls
  | TextFileDataStream_cls => Some FileDataStream_cls
  | Uint8FileDataStream_cls => Some FileDataStream_cls
  end.

(** The methods each class body defines, with whether the definition is
    decorated with [abc.abstractmethod]. *)
Definition class_body (c : PyClass) : list (MethodName * bool) :=
  match c with
  | DataStream_cls =>
      [(m_reset, true); (m_get_symbol, true); (m_get_block, false);
       (m_write_symbol, true); (m_write_block, false);
       (m_enter, false); (m_exit, false)]
  | ListDataStream_cls =>
      [(m_init, false); (m_reset, false); (m_get_symbol, false);
       (m_write_symbol, false)]
  | FileDataStream_cls =>
      [(m_init, false); (m_enter, false); (m_exit, false); (m_reset, false)]
  | TextFileDataStream_cls =>
      [(m_get_symbol, false); (m_write_symbol, false)]
  | Uint8FileDataStream_cls => []
  end.

Fixpoint find_method (m : MethodName) (body : list (MethodName * bool))
  : option bool :=
  match body with
  | [] => None
  | (m', a) :: body' => if MethodName_eqb m m' then Some a else find_method m body'
  end.

(** The classes searched for an attribute, nearest first. *)
Definition mro (c : PyClass) : list PyClass :=
  match base c with
  | None => [c]
  | Some b =>
      match base b with
      | None => [c; b]
      | Some bb => [c; b; bb]
      end
  end.

(** The class whose body gives [c] its method [m], and whether that
    definition is abstract. *)
Fixpoint resolve (m : MethodName) (cs : list PyClass) : option (PyClass * bool) :=
  match cs with
  | [] => None
  | c :: cs' =>
      match find_method m (class_body c) with
      | Some a => Some (c, a)
      | None => resolve m cs'
      end
  end.

Definition all_methods : list MethodName :=
  [m_reset; m_get_symbol; m_write_symbol; m_get_block; m_write_block;
   m_enter; m_exit; m_init].

(** [cls.__abstractmethods__]: the methods whose definition, as the class
    sees it, is still an abstract one. *)
Definition abstractmethods (c : PyClass) : list MethodName :=
  filter (fun m => match resolve m (mro c) with
                   | Some (_, true) => true
                   | _ => false
                   end) all_methods.

(** Calling a class: one with abstract methods left cannot be
    instantiated. *)
Definition instantiate {A} (c : PyClass) (init : A) : Result A :=
  match abstractmethods c with
  | [] => Ok init
  | _ :: _ => Raise TypeError
  end.

(** ** FileDataStream and its subclasses *)

Inductive FileClass : Type :=
| FileDataStream_
| TextFileDataStream_
| Uint8FileDataStream_.

Definition class_of (k : FileClass) : PyClass :=
  match k with
  | FileDataStream_ => FileDataStream_cls
  | TextFileDataStream_ => TextFileDataStream_cls
  | Uint8FileDataStream_ => Uint8FileDataStream_cls
  end.

(** The attributes of an instance; [file_obj] exists only once [__enter__]
    has run. *)
Record FileDataStream : Type := mkFileDataStream {
  cls : FileClass;
  file_path : string;
  permissions : string;
  file_obj : option nat
}.

(** The file system together with the stream object that works on it. *)
Record FileState : Type := mkFileState {
  world : World;
  self : FileDataStream
}.

(** A file operation run on [self.file_obj]; reading the attribute before
    it is set raises [AttributeError]. *)
Definition on_file_obj {A} (op : nat -> M World A) : M FileState A :=
  fun st =>
    match file_obj (self st) with
    | None => (Raise AttributeError, st)
    | Some h =>
        let '(r, w') := op h (world st) in
        (r, mkFileState w' (self st))
    end.

(** [not s] for the values [read] returns. *)
Definition py_not (s : Symbol) : bool :=
  match s with
  | PyNone => true
  | PyInt z => (z =? 0)%Z
  | PyStr t => String.eqb t ""
  | PyBytes t => String.eqb t ""
  end.

Module FileStream.

(** [FileDataStream.__init__], with [permissions="r"] by default. *)
Definition init (k : FileClass) (path : string) (perms : option string)
  : FileDataStream :=
  mkFileDataStream k path
    (match perms with Some p => p | None => "r"%string end) None.

(** [K(file_path, permissions)] for a class [K] of the file family. *)
Definition new (k : FileClass) (path : string) (perms : option string)
  : Result FileDataStream :=
  instantiate (class_of k) (init k path perms).

Definition __enter__ : M FileState unit :=
  fun st =>
    match py_open (file_path (self st)) (permissions (self st)) (world st) with
    | (Ok h, w') =>
        (Ok tt,
         mkFileState w'
           (mkFileDataStream (cls (self st)) (file_path (self st))
              (permissions (self st)) (Some h)))
    | (Raise e, w') => (Raise e, mkFileState w' (self st))
    end.

Definition __exit__ : M FileState unit := on_file_obj file_close.

Definition reset : M FileState unit := on_file_obj file_seek0.

(** [TextFileDataStream.get_symbol] *)
Definition text_get_symbol : M FileState Symbol :=
  s <- on_file_obj file_read1 ;;
  if py_not s then ret PyNone else ret s.

(** [TextFileDataStream.write_symbol] *)
Definition text_write_symbol (s : Symbol) : M FileState unit :=
  on_file_obj (fun h => file_write h s).

(** The method the class of [self] resolves to: the text class has its
    own, the others are left with the abstract bodies of [DataStream],
    which are [pass] and return [None]. *)
Definition get_symbol : M FileState Symbol :=
  fun st =>
    match cls (self st) with
    | TextFileDataStream_ => text_get_symbol st
    | _ => (Ok PyNone, st)
    end.

Definition write_symbol (s : Symbol) : M FileState unit :=
  fun st =>
    match cls (self st) with
    | TextFileDataStream_ => text_write_symbol s st
    | _ => (Ok tt, st)
    end.

End FileStream.

#[export] Instance FileDataStream_stream : DataStream FileState := {
  reset := FileStream.reset;
  get_symbol := FileStream.get_symbol;
  write_symbol := FileStream.write_symbol;
  __enter__ := FileStream.__enter__;
  __exit__ := FileStream.__exit__
}.

(** ** Using a stream *)

(** The calls a client makes on a stream. *)
Inductive Op : Type :=
| Reset
| GetSymbol
| WriteSymbol (s : Symbol)
| GetBlock (block_size : Z)
| WriteBlock (data_block : DataBlock).

(** What a call returns. *)
Inductive Value : Type :=
| VNone
| VSymbol (s : Symbol)
| VBlock (b : DataBlock).

Section Clients.

Context {St : Type} `{DataStream St}.

Definition call (op : Op) : M St Value :=
  match op with
  | Reset => reset ;;; ret VNone
  | GetSymbol => s <- get_symbol ;; ret (VSymbol s)
  | WriteSymbol s => write_symbol s ;;; ret VNone
  | GetBlock n =>
      b <- get_block n ;;
      ret (match b with Some blk => VBlock blk | None => VNone end)
  | WriteBlock b => write_block b ;;; ret VNone
  end.

(** A sequence of calls, stopped by the first exception; the values
    returned are collected. *)
Fixpoint calls (ops : list Op) : M St (list Value) :=
  match ops with
  | [] => ret []
  | op :: ops' =>
      v <- call op ;;
      vs <- calls ops' ;;
      ret (v :: vs)
  end.

(** [with ds as d: body]: [__exit__] runs when [__enter__] has returned,
    whether the body returns or raises; it returns [None], so an
    exception of the body goes on to the caller. *)
Definition with_ {A} (body : M St A) : M St A :=
  fun st =>
    match __enter__ st with
    | (Raise e, st1) => (Raise e, st1)
    | (Ok _, st1) =>
        let '(r, st2) := body st1 in
        match __exit__ st2 with
        | (Raise e, st3) => (Raise e, st3)
        | (Ok _, st3) => (r, st3)
        end
    end.

(** Blocks asked for until [get_block] returns [None]; the size of the
    [i]-th request is [block_size i].  [None] when [fuel] requests did not
    reach the end. *)
Fixpoint read_blocks (fuel : nat) (block_size : nat -> Z) (i : nat)
  : M St (option (list DataBlock)) :=
  match fuel with
  | O => ret None
  | S fuel' =>
      b <- get_block (block_size i) ;;
      match b with
      | None => ret (Some [])
      | Some blk =>
          rest <- read_blocks fuel' block_size (S i) ;;
          ret (option_map (cons blk) rest)
      end
  end.

(** One [write_block] call per block. *)
Fixpoint write_blocks (bs : list DataBlock) : M St unit :=
  match bs with
  | [] => ret tt
  | b :: bs' => write_block b ;;; write_blocks bs'
  end.

End Clients.

(** The symbols of a sequence of blocks, in order. *)
Definition symbols_of (bs : list DataBlock) : list Symbol :=
  concat (map data_list bs).

(** [get_symbol] wrapped so that its calls are counted. *)
#[export] Instance Counting_stream {St : Type} `{DataStream St}
  : DataStream (St * nat) := {
  reset := fun '(st, n) => let '(r, st') := reset st in (r, (st', n));
  get_symbol := fun '(st, n) => let '(r, st') := get_symbol st in (r, (st', S n));
  write_symbol := fun s '(st, n) => let '(r, st') := write_symbol s st in (r, (st', n));
  __enter__ := fun '(st, n) => let '(r, st') := __enter__ st in (r, (st', n));
  __exit__ := fun '(st, n) => let '(r, st') := __exit__ st in (r, (st', n))
}.

(** [hands_out st l st']: from [st], successive [get_symbol] calls return
    the symbols of [l], none of them [None], and leave the stream in
    [st']. *)
Inductive hands_out {St : Type} `{DataStream St} : St -> list Symbol -> St -> Prop :=
| hands_out_nil : forall st, hands_out st [] st
| hands_out_cons : forall st s st1 l st',
    get_symbol st = (Ok s, st1) -> is_None s = false ->
    hands_out st1 l st' -> hands_out st (s :: l) st'.

(** The symbols a list stream has not handed out yet. *)
Definition remaining (ds : ListDataStream) : list Symbol :=
  skipn (Z.to_nat (current_ind ds)) (input_list ds).

Definition no_None (l : list Symbol) : bool :=
  forallb (fun s => negb (is_None s)) l.

(** The counter of a list stream points into the list or just past it. *)
Definition in_bounds (ds : ListDataStream) : Prop :=
  (0 <= current_ind ds <= Z.of_nat (length (input_list ds)))%Z.

(** A call that reaches [get_symbol] or [write_symbol] or is [reset]
    itself: all but [get_block] with no iteration to make and [write_block]
    of an empty block. *)
Definition touches_stream (op : Op) : bool :=
  match op with
  | GetBlock n => (1 <=? n)%Z
  | WriteBlock b => match data_list b with [] => false | _ :: _ => true end
  | _ => true
  end.

(** A client of the file family: the class is called, the object used as
    a context manager around the calls of [body]. *)
Definition use_file_stream (k : FileClass) (path : string) (perms : option string)
  (body : list Op) : M World (list Value) :=
  fun w =>
    match FileStream.new k path perms with
    | Raise e => (Raise e, w)
    | Ok s =>
        let '(r, st) := with_ (calls body) (mkFileState w s) in
        (r, world st)
    end.

(** ** Repeated resets *)

Section Resets.

Context {St : Type} `{DataStream St}.


End Resets.

(** What two states of the world have in common when no file object was
    made or closed in between. *)
Definition same_shape (w w' : World) : Prop :=
  trace w' = trace w /\ length (handles w') = length (handles w).

(** The stream object [s0] inside a scope: the events so far are [t] and
    [n] file objects exist. *)
Definition in_scope (s0 : FileDataStream) (t : list Event) (n : nat)
  (st : FileState) : Prop :=
  self st = s0 /\ trace (world st) = t /\ length (handles (world st)) = n.

(** The file object of the stream has been closed. *)
Definition handle_closed (st : FileState) : Prop :=
  exists h fo,
    file_obj (self st) = Some h /\
    nth_error (handles (world st)) h = Some fo /\
    fo_closed fo = true.

(** A stream object as it was before its first [__enter__]. *)
Definition without_file_obj (st : FileState) : FileState :=
  mkFileState (world st)
    (mkFileDataStream (cls (self st)) (file_path (self st))
       (permissions (self st)) None).

(** Worlds to run examples in: no file at all, or one file. *)
Definition empty_world : World := mkWorld [] [] None [].

Definition world_with (path text : string) : World :=
  mkWorld [(path, list_ascii_of_string text)] [] None [].

(** The characters of a string as one-character symbols. *)
Definition chars (text : string) : list Symbol :=
  map (fun c => PyStr (chr c)) (list_ascii_of_string text).

(** The symbols of what [get_block] returned: none for [None]. *)
Definition block_symbols (o : option DataBlock) : list Symbol :=
  match o with
  | Some b => data_list b
  | None => []
  end.

(** A sequence of blocks cut with size [n]: every block but the last holds
    [n] symbols, the last between 1 and [n]. *)
Fixpoint full_blocks (n : Z) (bs : list DataBlock) : bool :=
  match bs with
  | [] => true
  | b :: bs' =>
      match bs' with
      | [] => (1 <=? size b)%Z && (size b <=? n)%Z
      | _ :: _ => (size b =? n)%Z && full_blocks n bs'
      end
  end.




(** A string or bytes value of length one. *)
Definition is_char (s : Symbol) : bool :=
  match s with
  | PyStr t | PyBytes t => Nat.eqb (String.length t) 1
  | _ => false
  end.





(** The list of [test_list_data_stream]: [list(range(10))]. *)
Definition range10 : list Symbol := map (fun n => PyInt (Z.of_nat n)) (seq 0 10).

(** * Properties *)

Unset Implicit Arguments.

(** ** The block operations, for every stream *)

Section Block_facts.

Context {St : Type} `{DataStream St}.

Lemma bind_Ok {A B} (m : M St A) (f : A -> M St B) st a st' :
  m st = (Ok a, st') -> bind m f st = f a st'.
Proof. intros E. unfold bind. now rewrite E. Qed.

Lemma bind_Raise {A B} (m : M St A) (f : A -> M St B) st e st' :
  m st = (Raise e, st') -> bind m f st = (Raise e, st').
Proof. intros E. unfold bind. now rewrite E. Qed.

(** A property of the state that [get_symbol] keeps is kept by the loop
    of [get_block], whatever the outcome. *)
Lemma get_block_loop_keeps (P : St -> Prop) :
  (forall st, P st -> P (snd (get_symbol st))) ->
  forall k acc st, P st -> P (snd (get_block_loop k acc st)).
Proof.
  intros Hg k. induction k as [|k IH]; intros acc st HP; simpl.
  - exact HP.
  - unfold bind. specialize (Hg st HP).
    destruct (get_symbol st) as [[s|e] st1]; simpl in *.
    + destruct (is_None s); [exact Hg | now apply IH].
    + exact Hg.
Qed.

Lemma get_block_keeps (P : St -> Prop) :
  (forall st, P st -> P (snd (get_symbol st))) ->
  forall n st, P st -> P (snd (get_block n st)).
Proof.
  intros Hg n st HP. unfold get_block, bind.
  pose proof (get_block_loop_keeps P Hg (Z.to_nat n) [] st HP) as K.
  destruct (get_block_loop (Z.to_nat n) [] st) as [[l|e] st1]; simpl in *.
  - destruct l; exact K.
  - exact K.
Qed.

Lemma write_symbols_keeps (P : St -> Prop) :
  (forall s st, P st -> P (snd (write_symbol s st))) ->
  forall l st, P st -> P (snd (write_symbols l st)).
Proof.
  intros Hw l. induction l as [|s l IH]; intros st HP; simpl.
  - exact HP.
  - unfold bind. specialize (Hw s st HP).
    destruct (write_symbol s st) as [[u|e] st1]; simpl in *.
    + now apply IH.
    + exact Hw.
Qed.

(** The same for a property that also rules exceptions out. *)
Lemma get_block_loop_safe (P : St -> Prop) :
  (forall st, P st -> is_Ok (fst (get_symbol st)) = true /\ P (snd (get_symbol st))) ->
  forall k acc st, P st ->
    is_Ok (fst (get_block_loop k acc st)) = true /\ P (snd (get_block_loop k acc st)).
Proof.
  intros Hg k. induction k as [|k IH]; intros acc st HP; simpl.
  - now split.
  - unfold bind. destruct (Hg st HP) as [Hok HP1].
    destruct (get_symbol st) as [[s|e] st1]; simpl in *; [|discriminate].
    destruct (is_None s); [now split | now apply IH].
Qed.

Lemma write_symbols_safe (P : St -> Prop) :
  (forall s st, P st ->
     is_Ok (fst (write_symbol s st)) = true /\ P (snd (write_symbol s st))) ->
  forall l st, P st ->
    is_Ok (fst (write_symbols l st)) = true /\ P (snd (write_symbols l st)).
Proof.
  intros Hw l. induction l as [|s l IH]; intros st HP; simpl.
  - now split.
  - unfold bind. destruct (Hw s st HP) as [Hok HP1].
    destruct (write_symbol s st) as [[u|e] st1]; simpl in *; [|discriminate].
    now apply IH.
Qed.

(** The loop only ever extends what it has collected. *)
Lemma get_block_loop_extends k :
  forall acc st l st',
    get_block_loop k acc st = (Ok l, st') -> exists t, l = acc ++ t.
Proof.
  induction k as [|k IH]; intros acc st l st' E; simpl in E.
  - inversion E; subst. exists []. now rewrite app_nil_r.
  - unfold bind in E. destruct (get_symbol st) as [[s|e] st1]; [|discriminate].
    destruct (is_None s).
    + inversion E; subst. exists []. now rewrite app_nil_r.
    + apply IH in E. destruct E as [t ->]. exists (s :: t).
      now rewrite <- app_assoc.
Qed.

(** A block that [get_block] returns holds at least one symbol. *)
Lemma get_block_size_pos n st b st' :
  get_block n st = (Ok (Some b), st') -> (1 <= size b)%Z.
Proof.
  unfold get_block, bind.
  destruct (get_block_loop (Z.to_nat n) [] st) as [[l|e] st1]; [|discriminate].
  destruct l as [|s l]; intros E; inversion E; subst.
  unfold size; simpl. lia.
Qed.

(** With a block size of zero, or a negative one, the loop body does not
    run. *)
Lemma get_block_nonpositive n st :
  (n <= 0)%Z -> get_block n st = (Ok None, st).
Proof.
  intros Hn. unfold get_block.
  replace (Z.to_nat n) with O by lia. reflexivity.
Qed.

(** The loop of [get_block] along the symbols a stream hands out: it
    collects [k] of them when there are that many, and all of them when
    [get_symbol] then returns [None]. *)
Lemma get_block_loop_hands_out st l st' :
  hands_out st l st' ->
  forall k acc,
    (length l = k -> get_block_loop k acc st = (Ok (acc ++ l), st')) /\
    ((length l < k)%nat ->
     forall st_end, get_symbol st' = (Ok PyNone, st_end) ->
       get_block_loop k acc st = (Ok (acc ++ l), st_end)).
Proof.
  induction 1 as [st | st s st1 l st' G Hs Hl IH]; intros k acc; split.
  - intros <-. simpl. unfold ret. now rewrite app_nil_r.
  - intros Hk st_end E. destruct k as [|k]; [simpl in Hk; lia|].
    cbn [get_block_loop]. unfold bind, ret. rewrite E. simpl.
    now rewrite app_nil_r.
  - intros <-. cbn [length get_block_loop]. unfold bind. rewrite G, Hs.
    destruct (IH (length l) (acc ++ [s])) as [IH1 _].
    rewrite IH1 by reflexivity. now rewrite <- app_assoc.
  - intros Hk st_end E. destruct k as [|k]; [simpl in Hk; lia|].
    cbn [get_block_loop]. unfold bind. rewrite G, Hs.
    destruct (IH k (acc ++ [s])) as [_ IH2].
    rewrite (IH2 ltac:(simpl in Hk; lia) st_end E). now rewrite <- app_assoc.
Qed.

Lemma hands_out_firstn st l st' :
  hands_out st l st' -> forall k, exists st_k, hands_out st (firstn k l) st_k.
Proof.
  induction 1 as [st | st s st1 l st' G Hs Hl IH]; intros k.
  - exists st. rewrite firstn_nil. constructor.
  - destruct k as [|k].
    + exists st. constructor.
    + destruct (IH k) as [st_k Hk]. exists st_k. simpl.
      now apply hands_out_cons with (st1 := st1).
Qed.

(** [get_block] on a stream that hands out [l] and then returns [None]. *)
Lemma get_block_hands_out n st l st' st_end :
  (1 <= n)%Z -> hands_out st l st' -> get_symbol st' = (Ok PyNone, st_end) ->
  exists st2,
    get_block n st
    = (Ok (match firstn (Z.to_nat n) l with
           | [] => None
           | s :: data => Some (mkDataBlock (s :: data))
           end), st2).
Proof.
  intros Hn Hl E. unfold get_block, bind.
  destruct (Nat.le_gt_cases (Z.to_nat n) (length l)) as [Hle|Hgt].
  - destruct (hands_out_firstn st l st' Hl (Z.to_nat n)) as [st_k Hk].
    destruct (get_block_loop_hands_out _ _ _ Hk (Z.to_nat n) []) as [L _].
    rewrite L by (rewrite length_firstn; lia). exists st_k. cbn [app].
    now destruct (firstn (Z.to_nat n) l).
  - destruct (get_block_loop_hands_out _ _ _ Hl (Z.to_nat n) []) as [_ L].
    rewrite (L Hgt st_end E). exists st_end. cbn [app].
    rewrite firstn_all2 by lia. now destruct l.
Qed.

End Block_facts.

Arguments bind_Ok {St A B m} f {st a st'} _.
Arguments bind_Raise {St A B m} f {st e st'} _.

(** ** ListDataStream *)

Lemma skipn_nth_error {A} (l : list A) : forall i x,
  nth_error l i = Some x -> skipn i l = x :: skipn (S i) l.
Proof.
  induction l as [|y l IH]; intros [|i] x E; simpl in *; try discriminate.
  - now inversion E.
  - now apply IH.
Qed.

Lemma py_getitem_in_range (l : list Symbol) (i : nat) :
  (i < length l)%nat ->
  exists s, nth_error l i = Some s /\ py_getitem l (Z.of_nat i) = Ok s.
Proof.
  intros Hi. destruct (nth_error l i) as [s|] eqn:E.
  - exists s. split; [reflexivity|]. unfold py_getitem.
    replace (Z.of_nat i <? 0)%Z with false by (symmetry; apply Z.ltb_ge; lia).
    replace (0 <=? Z.of_nat i)%Z with true by (symmetry; apply Z.leb_le; lia).
    replace (Z.of_nat i <? Z.of_nat (length l))%Z with true
      by (symmetry; apply Z.ltb_lt; lia).
    simpl. now rewrite Nat2Z.id, E.
  - apply nth_error_None in E. lia.
Qed.

(** Below the length, [get_symbol] returns the element under the counter
    and moves the counter by one. *)
Lemma list_get_symbol_next (l : list Symbol) (i : nat) :
  (i < length l)%nat ->
  exists s, nth_error l i = Some s /\
    get_symbol (mkListDataStream l (Z.of_nat i))
    = (Ok s, mkListDataStream l (Z.of_nat (S i))).
Proof.
  intros Hi. destruct (py_getitem_in_range l i Hi) as [s [E G]].
  exists s. split; [exact E|].
  cbn [get_symbol ListDataStream_stream]. unfold ListStream.get_symbol; simpl.
  rewrite Z.geb_leb.
  replace (Z.of_nat (length l) <=? Z.of_nat i)%Z with false
    by (symmetry; apply Z.leb_gt; lia).
  rewrite G. do 2 f_equal. lia.
Qed.

(** At the length or beyond it, [get_symbol] returns [None] and changes
    nothing. *)
Lemma list_get_symbol_end (l : list Symbol) (c : Z) :
  (Z.of_nat (length l) <= c)%Z ->
  get_symbol (mkListDataStream l c) = (Ok PyNone, mkListDataStream l c).
Proof.
  intros Hc.
  cbn [get_symbol ListDataStream_stream]. unfold ListStream.get_symbol; simpl.
  rewrite Z.geb_leb.
  replace (Z.of_nat (length l) <=? c)%Z with true
    by (symmetry; apply Z.leb_le; lia).
  reflexivity.
Qed.

(** The loop of [get_block] on a list whose next [k] symbols are not
    [None]: it collects them, or all that remain when they are fewer. *)
Lemma list_get_block_loop (l : list Symbol) : forall k i acc,
  no_None (firstn k (skipn i l)) = true ->
  get_block_loop k acc (mkListDataStream l (Z.of_nat i))
  = (Ok (acc ++ firstn k (skipn i l)),
     mkListDataStream l (Z.of_nat (i + Nat.min k (length (skipn i l))))).
Proof.
  induction k as [|k IH]; intros i acc Hnn.
  - simpl. unfold ret. now rewrite app_nil_r, Nat.add_0_r.
  - change (get_block_loop (S k) acc (mkListDataStream l (Z.of_nat i)))
      with (bind get_symbol
              (fun s => if is_None s then ret acc
                        else get_block_loop k (acc ++ [s]))
              (mkListDataStream l (Z.of_nat i))).
    destruct (Nat.lt_ge_cases i (length l)) as [Hi|Hi].
    + destruct (list_get_symbol_next l i Hi) as [s [E G]].
      rewrite (skipn_nth_error l i s E) in *.
      remember (skipn (S i) l) as t eqn:Ht.
      rewrite firstn_cons in *. cbn [no_None forallb] in Hnn.
      apply andb_true_iff in Hnn. destruct Hnn as [Hs Hnn].
      rewrite (bind_Ok _ G).
      destruct (is_None s); [discriminate|].
      subst t. rewrite (IH (S i) (acc ++ [s]) Hnn).
      rewrite <- app_assoc. cbn [length Nat.min app]. do 3 f_equal. lia.
    + rewrite skipn_all2 by exact Hi.
      rewrite (bind_Ok _ (list_get_symbol_end l (Z.of_nat i) ltac:(lia))).
      cbn [is_None length]. unfold ret.
      rewrite firstn_nil, app_nil_r, Nat.min_0_r, Nat.add_0_r. reflexivity.
Qed.

(** [get_block] on a list stream, in terms of the symbols that remain. *)
Lemma list_get_block (l : list Symbol) (c n : Z) :
  (0 <= c)%Z ->
  no_None (firstn (Z.to_nat n) (remaining (mkListDataStream l c))) = true ->
  get_block n (mkListDataStream l c)
  = (Ok (match firstn (Z.to_nat n) (remaining (mkListDataStream l c)) with
         | [] => None
         | s :: data => Some (mkDataBlock (s :: data))
         end),
     mkListDataStream l
       (c + Z.of_nat (Nat.min (Z.to_nat n)
                        (length (remaining (mkListDataStream l c)))))).
Proof.
  intros Hc Hnn. unfold remaining in *. cbn [input_list current_ind] in *.
  pose proof (list_get_block_loop l (Z.to_nat n) (Z.to_nat c) [] Hnn) as L.
  rewrite Z2Nat.id in L by exact Hc.
  unfold get_block. rewrite (bind_Ok _ L). cbn [app].
  rewrite Nat2Z.inj_add, Z2Nat.id by exact Hc.
  now destruct (firstn (Z.to_nat n) (skipn (Z.to_nat c) l)).
Qed.

Lemma no_None_firstn (l : list Symbol) : forall k,
  no_None l = true -> no_None (firstn k l) = true.
Proof.
  induction l as [|s l IH]; intros [|k] Hl; simpl in *; try reflexivity.
  apply andb_true_iff in Hl. destruct Hl as [Hs Hl].
  rewrite Hs. now apply IH.
Qed.

Lemma no_None_skipn (l : list Symbol) : forall k,
  no_None l = true -> no_None (skipn k l) = true.
Proof.
  induction l as [|s l IH]; intros [|k] Hl; simpl in *; try reflexivity.
  - exact Hl.
  - apply andb_true_iff in Hl. now apply IH.
Qed.

(** C1 (as the code has it).  On a list stream with [r] symbols remaining,
    of which the next [n] are not [None], [get_block n] for [n >= 1] returns
    the next [min n r] symbols in order as a block of that size and moves the
    counter past them when [r >= 1], and returns [None] when [r = 0].  The
    same holds on every stream that hands out [r] symbols, none of them
    [None], before [get_symbol] returns [None].  On every stream, a block
    that [get_block] returns has at least one symbol. *)
Theorem get_block_short_final_block :
  (forall (l : list Symbol) (c n : Z),
     (1 <= n)%Z -> (0 <= c)%Z ->
     no_None (firstn (Z.to_nat n) (remaining (mkListDataStream l c))) = true ->
     let ds := mkListDataStream l c in
     let r := Z.of_nat (length (remaining ds)) in
     ((1 <= r)%Z ->
      exists b,
        get_block n ds = (Ok (Some b), mkListDataStream l (c + Z.min n r)) /\
        data_list b = firstn (Z.to_nat n) (remaining ds) /\
        size b = Z.min n r) /\
     (r = 0%Z -> get_block n ds = (Ok None, ds))) /\
  (forall (St : Type) (DS : DataStream St) (st st' st_end : St)
          (l : list Symbol) (n : Z),
     (1 <= n)%Z -> hands_out st l st' -> get_symbol st' = (Ok PyNone, st_end) ->
     let r := Z.of_nat (length l) in
     ((1 <= r)%Z ->
      exists b st2,
        get_block n st = (Ok (Some b), st2) /\
        data_list b = firstn (Z.to_nat n) l /\
        size b = Z.min n r) /\
     (r = 0%Z -> exists st2, get_block n st = (Ok None, st2))) /\
  (forall (St : Type) (DS : DataStream St) (n : Z) (st st' : St) (b : DataBlock),
     get_block n st = (Ok (Some b), st') -> (1 <= size b)%Z).
Proof.
  split; [|split].
  - intros l c n Hn Hc Hnn ds r.
    pose proof (list_get_block l c n Hc Hnn) as G.
    fold ds in G.
    assert (Hm : Z.of_nat (Nat.min (Z.to_nat n) (length (remaining ds)))
                 = Z.min n r) by (subst r; lia).
    rewrite Hm in G. split.
    + intros Hr.
      destruct (firstn (Z.to_nat n) (remaining ds)) as [|s data] eqn:F.
      * apply (f_equal (@length Symbol)) in F. rewrite length_firstn in F.
        simpl in F. subst r. lia.
      * exists (mkDataBlock (s :: data)). split; [exact G|]. split; [reflexivity|].
        unfold size. cbn [data_list]. rewrite <- F, length_firstn. subst r. lia.
    + intros Hr. assert (E : remaining ds = []).
      { destruct (remaining ds); [reflexivity|]. subst r. simpl in Hr. lia. }
      rewrite E, firstn_nil in G. rewrite G.
      replace (Z.min n r) with 0%Z by lia.
      unfold ds. now rewrite Z.add_0_r.
  - intros St DS st st' st_end l n Hn Hl E r.
    destruct (get_block_hands_out n st l st' st_end Hn Hl E) as [st2 G].
    split.
    + intros Hr. destruct (firstn (Z.to_nat n) l) as [|s data] eqn:F.
      * apply (f_equal (@length Symbol)) in F. rewrite length_firstn in F.
        simpl in F. subst r. lia.
      * exists (mkDataBlock (s :: data)), st2. split; [exact G|].
        split; [reflexivity|].
        unfold size. cbn [data_list]. rewrite <- F, length_firstn. subst r. lia.
    + intros Hr. exists st2. destruct l; [|subst r; simpl in Hr; lia].
      now rewrite firstn_nil in G.
  - intros St DS n st st' b. apply get_block_size_pos.
Qed.

Lemma get_block_short_final_block_witness :
  ((1 <= 2)%Z /\ (0 <= 9)%Z /\
   no_None (firstn (Z.to_nat 2) (remaining (mkListDataStream range10 9))) = true /\
   (1 <= Z.of_nat (length (remaining (mkListDataStream range10 9))))%Z /\
   exists b,
     get_block 2 (mkListDataStream range10 9)
     = (Ok (Some b), mkListDataStream range10 (9 + Z.min 2 1)) /\
     data_list b = [PyInt 9] /\ size b = 1%Z) /\
  (hands_out (mkListDataStream [PyInt 5; PyInt 6] 0) [PyInt 5; PyInt 6]
     (mkListDataStream [PyInt 5; PyInt 6] 2) /\
   get_symbol (mkListDataStream [PyInt 5; PyInt 6] 2)
   = (Ok PyNone, mkListDataStream [PyInt 5; PyInt 6] 2) /\
   exists b st2,
     get_block 3 (mkListDataStream [PyInt 5; PyInt 6] 0) = (Ok (Some b), st2) /\
     data_list b = [PyInt 5; PyInt 6] /\ size b = 2%Z) /\
  (get_block 3 (mkListDataStream [PyInt 5; PyInt 6] 0)
   = (Ok (Some (mkDataBlock [PyInt 5; PyInt 6])), mkListDataStream [PyInt 5; PyInt 6] 2) /\
   (1 <= size (mkDataBlock [PyInt 5; PyInt 6]))%Z).
Proof.
  assert (H9 : (0 <= 9)%Z) by lia.
  assert (H2 : (1 <= 2)%Z) by lia.
  assert (H3 : (1 <= 3)%Z) by lia.
  assert (Hr : (1 <= Z.of_nat (length (remaining (mkListDataStream range10 9))))%Z)
    by (vm_compute; discriminate).
  assert (Hr2 : (1 <= Z.of_nat (length [PyInt 5; PyInt 6]))%Z)
    by (vm_compute; discriminate).
  assert (Hh : hands_out (mkListDataStream [PyInt 5; PyInt 6] 0) [PyInt 5; PyInt 6]
                 (mkListDataStream [PyInt 5; PyInt 6] 2)).
  { eapply hands_out_cons; [reflexivity | reflexivity |].
    eapply hands_out_cons; [reflexivity | reflexivity |].
    apply hands_out_nil. }
  split; [|split].
  - repeat split; try assumption.
    exact (proj1 (proj1 get_block_short_final_block range10 9%Z 2%Z H2 H9 eq_refl) Hr).
  - split; [exact Hh|]. split; [reflexivity|].
    exact (proj1 (proj1 (proj2 get_block_short_final_block) ListDataStream _
                    (mkListDataStream [PyInt 5; PyInt 6] 0)
                    (mkListDataStream [PyInt 5; PyInt 6] 2)
                    (mkListDataStream [PyInt 5; PyInt 6] 2)
                    [PyInt 5; PyInt 6] 3%Z H3 Hh eq_refl) Hr2).
  - split; [reflexivity|].
    exact (proj2 (proj2 get_block_short_final_block) ListDataStream _ 3%Z
             (mkListDataStream [PyInt 5; PyInt 6] 0)
             (mkListDataStream [PyInt 5; PyInt 6] 2)
             (mkDataBlock [PyInt 5; PyInt 6]) eq_refl).
Defined.

(** C1, the claim as it is written, fails on a list that holds [None]:
    two symbols remain, and [get_block 2] returns the end-of-stream value
    where a block of size 2 is claimed. *)
Lemma get_block_None_symbol_counterexample :
  let ds := ListStream.init [PyNone; PyInt 1] in
  length (remaining ds) = 2%nat /\
  get_block 2 ds = (Ok None, mkListDataStream [PyNone; PyInt 1] 1) /\
  ~ (exists b st', get_block 2 ds = (Ok (Some b), st') /\ size b = Z.min 2 2).
Proof.
  split; [reflexivity|]. split; [reflexivity|].
  intros [b [st' [E _]]]. vm_compute in E. discriminate.
Qed.

(** C8.  On every stream and in every state, [get_block 0] returns the
    end-of-stream value and leaves the state as it was; the count of
    [get_symbol] calls, taken with the counting wrapper, stays the same. *)
Theorem get_block_zero :
  forall (St : Type) (DS : DataStream St) (st : St),
    get_block 0 st = (Ok None, st) /\
    forall calls_so_far : nat,
      get_block 0 (st, calls_so_far) = (Ok None, (st, calls_so_far)).
Proof.
  intros St DS st. split; [reflexivity|]. intros k. reflexivity.
Qed.

(** C7.  [write_symbol s] on a list stream puts [s] at the end of the list
    and leaves the counter alone, wherever the counter is; every element
    that was there stays at its index; a read that follows returns the
    element under the counter, which is the one it would have returned
    before the write, or [s] itself when the counter was at the end. *)
Theorem write_symbol_appends :
  forall (l : list Symbol) (c : Z) (s : Symbol),
    write_symbol s (mkListDataStream l c) = (Ok tt, mkListDataStream (l ++ [s]) c) /\
    firstn (length l) (l ++ [s]) = l /\
    (forall i x, nth_error l i = Some x -> nth_error (l ++ [s]) i = Some x) /\
    ((0 <= c < Z.of_nat (length l))%Z ->
     exists x,
       get_symbol (mkListDataStream l c) = (Ok x, mkListDataStream l (c + 1)) /\
       get_symbol (mkListDataStream (l ++ [s]) c)
       = (Ok x, mkListDataStream (l ++ [s]) (c + 1))) /\
    (c = Z.of_nat (length l) ->
     get_symbol (mkListDataStream (l ++ [s]) c)
     = (Ok s, mkListDataStream (l ++ [s]) (c + 1))).
Proof.
  intros l c s. split; [reflexivity|]. split.
  { now rewrite firstn_app, Nat.sub_diag, firstn_all, app_nil_r. }
  split.
  { intros i x E. rewrite nth_error_app1; [exact E|].
    apply nth_error_Some. now rewrite E. }
  split.
  - intros Hc. replace c with (Z.of_nat (Z.to_nat c)) by lia.
    assert (Hi : (Z.to_nat c < length l)%nat) by lia.
    destruct (list_get_symbol_next l _ Hi) as [x [E G]].
    assert (Hi' : (Z.to_nat c < length (l ++ [s]))%nat)
      by (rewrite length_app; simpl; lia).
    destruct (list_get_symbol_next (l ++ [s]) _ Hi') as [y [E' G']].
    rewrite nth_error_app1 in E' by exact Hi.
    assert (y = x) by congruence. subst y.
    exists x. rewrite G, G'. rewrite Nat2Z.inj_succ. split; do 2 f_equal; lia.
  - intros ->.
    assert (Hi' : (length l < length (l ++ [s]))%nat)
      by (rewrite length_app; simpl; lia).
    destruct (list_get_symbol_next (l ++ [s]) _ Hi') as [y [E' G']].
    rewrite nth_error_app2, Nat.sub_diag in E' by lia. simpl in E'.
    inversion E'; subst y. rewrite G'. do 2 f_equal. lia.
Qed.

Lemma write_symbol_appends_witness :
  ((0 <= 1 < Z.of_nat (length [PyInt 5; PyInt 6; PyInt 7]))%Z /\
   exists x,
     get_symbol (mkListDataStream [PyInt 5; PyInt 6; PyInt 7] 1)
     = (Ok x, mkListDataStream [PyInt 5; PyInt 6; PyInt 7] (1 + 1)) /\
     get_symbol (mkListDataStream ([PyInt 5; PyInt 6; PyInt 7] ++ [PyInt 8]) 1)
     = (Ok x, mkListDataStream ([PyInt 5; PyInt 6; PyInt 7] ++ [PyInt 8]) (1 + 1))) /\
  (nth_error [PyInt 5; PyInt 6; PyInt 7] 2 = Some (PyInt 7) /\
   nth_error ([PyInt 5; PyInt 6; PyInt 7] ++ [PyInt 8]) 2 = Some (PyInt 7)) /\
  (3%Z = Z.of_nat (length [PyInt 5; PyInt 6; PyInt 7]) /\
   get_symbol (mkListDataStream ([PyInt 5; PyInt 6; PyInt 7] ++ [PyInt 8]) 3)
   = (Ok (PyInt 8),
      mkListDataStream ([PyInt 5; PyInt 6; PyInt 7] ++ [PyInt 8]) (3 + 1))).
Proof.
  assert (H : (0 <= 1 < Z.of_nat (length [PyInt 5; PyInt 6; PyInt 7]))%Z)
    by (simpl; lia).
  split; [|split].
  - split; [exact H|].
    exact (proj1 (proj2 (proj2 (proj2
             (write_symbol_appends [PyInt 5; PyInt 6; PyInt 7] 1%Z (PyInt 8))))) H).
  - split; [reflexivity|].
    exact (proj1 (proj2 (proj2
             (write_symbol_appends [PyInt 5; PyInt 6; PyInt 7] 0%Z (PyInt 8))))
             2%nat (PyInt 7) eq_refl).
  - split; [reflexivity|].
    exact (proj2 (proj2 (proj2 (proj2
             (write_symbol_appends [PyInt 5; PyInt 6; PyInt 7] 3%Z (PyInt 8)))))
             eq_refl).
Defined.

(** *** The counter stays within the list *)

Lemma list_get_symbol_safe (ds : ListDataStream) :
  in_bounds ds ->
  is_Ok (fst (get_symbol ds)) = true /\ in_bounds (snd (get_symbol ds)).
Proof.
  destruct ds as [l c]. unfold in_bounds. cbn [input_list current_ind].
  intros Hb. destruct (Z.eq_dec c (Z.of_nat (length l))) as [He|Hne].
  - rewrite (list_get_symbol_end l c) by lia. simpl. split; [reflexivity | lia].
  - assert (Hi : (Z.to_nat c < length l)%nat) by lia.
    destruct (list_get_symbol_next l _ Hi) as [x [_ G]].
    rewrite Z2Nat.id in G by lia. rewrite G. simpl. split; [reflexivity | lia].
Qed.

Lemma list_write_symbol_safe (s : Symbol) (ds : ListDataStream) :
  in_bounds ds ->
  is_Ok (fst (write_symbol s ds)) = true /\ in_bounds (snd (write_symbol s ds)).
Proof.
  destruct ds as [l c]. unfold in_bounds. simpl. rewrite length_app. simpl.
  intros Hb. split; [reflexivity | lia].
Qed.

(** Each call on a list stream whose counter is within bounds returns
    without an exception and leaves the counter within bounds. *)
Lemma list_call_safe (op : Op) (ds : ListDataStream) :
  in_bounds ds ->
  is_Ok (fst (call op ds)) = true /\ in_bounds (snd (call op ds)).
Proof.
  intros Hb. destruct op as [| |s|n|b]; unfold call.
  - unfold in_bounds in *. simpl. split; [reflexivity | lia].
  - destruct (list_get_symbol_safe ds Hb) as [Hok Hb'].
    unfold bind. destruct (get_symbol ds) as [[x|e] ds']; simpl in *;
      [now split | discriminate].
  - now apply list_write_symbol_safe.
  - destruct (get_block_loop_safe in_bounds list_get_symbol_safe
                (Z.to_nat n) [] ds Hb) as [Hok Hb'].
    unfold get_block, bind.
    destruct (get_block_loop (Z.to_nat n) [] ds) as [[l|e] ds']; simpl in *;
      [|discriminate].
    destruct l; simpl; now split.
  - destruct (write_symbols_safe in_bounds list_write_symbol_safe
                (data_list b) ds Hb) as [Hok Hb'].
    unfold write_block, bind.
    destruct (write_symbols (data_list b) ds) as [[u|e] ds']; simpl in *;
      [now split | discriminate].
Qed.

Lemma list_calls_safe (ops : list Op) : forall ds : ListDataStream,
  in_bounds ds ->
  is_Ok (fst (calls ops ds)) = true /\ in_bounds (snd (calls ops ds)).
Proof.
  induction ops as [|op ops IH]; intros ds Hb; simpl.
  - now split.
  - destruct (list_call_safe op ds Hb) as [Hok Hb'].
    unfold bind.
    destruct (call op ds) as [[v|e] ds1]; cbn [fst snd is_Ok] in *;
      [|discriminate].
    destruct (IH ds1 Hb') as [Hok2 Hb2].
    destruct (calls ops ds1) as [[vs|e] ds2]; cbn [fst snd is_Ok ret] in *;
      [now split | discriminate].
Qed.

(** C10.  A list stream is built with its counter within
    [0 .. len(input_list)], and after any sequence of [reset], [get_symbol],
    [write_symbol], [get_block] and [write_block] calls the counter is still
    there; none of the calls raises, so [get_symbol] never indexes the list
    out of range. *)
Theorem list_counter_in_bounds :
  forall (l : list Symbol) (ops : list Op),
    in_bounds (ListStream.init l) /\
    is_Ok (fst (calls ops (ListStream.init l))) = true /\
    in_bounds (snd (calls ops (ListStream.init l))).
Proof.
  intros l ops.
  assert (H0 : in_bounds (ListStream.init l)).
  { unfold in_bounds. simpl. lia. }
  split; [exact H0|]. now apply list_calls_safe.
Qed.

(** *** Writing blocks and reading them back *)

Lemma list_write_symbols (data : list Symbol) : forall (l : list Symbol) (c : Z),
  write_symbols data (mkListDataStream l c)
  = (Ok tt, mkListDataStream (l ++ data) c).
Proof.
  induction data as [|s data IH]; intros l c; simpl.
  - unfold ret. now rewrite app_nil_r.
  - unfold bind. simpl. rewrite IH. now rewrite <- app_assoc.
Qed.

Lemma list_write_blocks (bs : list DataBlock) : forall (l : list Symbol) (c : Z),
  write_blocks bs (mkListDataStream l c)
  = (Ok tt, mkListDataStream (l ++ symbols_of bs) c).
Proof.
  induction bs as [|b bs IH]; intros l c; simpl.
  - unfold ret, symbols_of. simpl. now rewrite app_nil_r.
  - unfold bind, write_block. rewrite list_write_symbols, IH.
    unfold symbols_of. simpl. now rewrite <- app_assoc.
Qed.

(** Reading a list stream to its end in blocks of at least one symbol gives
    back what remained, provided no symbol among it is [None] and the
    requests allowed are more than the symbols. *)
Lemma list_read_blocks (l : list Symbol) (block_size : nat -> Z) :
  (forall i, (1 <= block_size i)%Z) ->
  forall (fuel i c : nat),
    no_None (skipn c l) = true ->
    (length (skipn c l) < fuel)%nat ->
    exists blocks c',
      read_blocks fuel block_size i (mkListDataStream l (Z.of_nat c))
      = (Ok (Some blocks), mkListDataStream l c') /\
      symbols_of blocks = skipn c l.
Proof.
  intros Hsize fuel. induction fuel as [|fuel IH]; intros i c Hnn Hfuel; [lia|].
  cbn [read_blocks].
  pose proof (list_get_block l (Z.of_nat c) (block_size i) ltac:(lia)) as G.
  unfold remaining in G. cbn [input_list current_ind] in G.
  rewrite Nat2Z.id in G.
  specialize (G (no_None_firstn _ _ Hnn)).
  rewrite (bind_Ok _ G).
  destruct (firstn (Z.to_nat (block_size i)) (skipn c l)) as [|s data] eqn:F.
  - exists [], (Z.of_nat c + Z.of_nat (Nat.min (Z.to_nat (block_size i))
                                      (length (skipn c l))))%Z.
    split; [reflexivity|].
    destruct (skipn c l) as [|x rest]; [reflexivity|].
    specialize (Hsize i).
    destruct (Z.to_nat (block_size i)) eqn:En; [lia | discriminate].
  - set (m := Nat.min (Z.to_nat (block_size i)) (length (skipn c l))) in *.
    assert (Hm : (1 <= m)%nat).
    { apply (f_equal (@length Symbol)) in F. rewrite length_firstn in F.
      simpl in F. subst m. lia. }
    replace (Z.of_nat c + Z.of_nat m)%Z with (Z.of_nat (c + m)) by lia.
    assert (Hsk : skipn (c + m) l = skipn (Z.to_nat (block_size i)) (skipn c l)).
    { rewrite skipn_skipn, Nat.add_comm. subst m.
      destruct (Nat.le_ge_cases (Z.to_nat (block_size i)) (length (skipn c l)))
        as [Hle|Hge].
      - now rewrite Nat.min_l by exact Hle.
      - rewrite Nat.min_r by exact Hge.
        rewrite length_skipn in *.
        rewrite !skipn_all2 by lia. reflexivity. }
    destruct (IH (S i) (c + m)%nat) as [blocks [c' [R S']]].
    + rewrite Hsk. now apply no_None_skipn.
    + rewrite Hsk, length_skipn. specialize (Hsize i).
      pose proof (length_skipn c l) as Hl. subst m. lia.
    + rewrite (bind_Ok _ R). exists (mkDataBlock (s :: data) :: blocks), c'.
      split; [reflexivity|].
      unfold symbols_of in *. cbn [map concat data_list].
      rewrite S', Hsk, <- F. apply firstn_skipn.
Qed.

(** C2 (as the code has it).  Symbols, none of them [None], written in any
    number of blocks to a list stream made on an empty list fill the list in
    order; after [reset], the blocks that [get_block] returns until it
    returns [None], each asked for with a size of at least 1, hold the same
    symbols in the same order. *)
Theorem list_round_trip :
  forall (bs : list DataBlock) (block_size : nat -> Z) (fuel : nat),
    (forall i, (1 <= block_size i)%Z) ->
    no_None (symbols_of bs) = true ->
    (length (symbols_of bs) < fuel)%nat ->
    exists written rewound blocks final,
      write_blocks bs (ListStream.init []) = (Ok tt, written) /\
      input_list written = symbols_of bs /\
      reset written = (Ok tt, rewound) /\
      read_blocks fuel block_size 0 rewound = (Ok (Some blocks), final) /\
      symbols_of blocks = symbols_of bs.
Proof.
  intros bs block_size fuel Hsize Hnn Hfuel.
  destruct (list_read_blocks (symbols_of bs) block_size Hsize fuel 0 0 Hnn Hfuel)
    as [blocks [c' [R S']]].
  exists (mkListDataStream (symbols_of bs) 0),
         (mkListDataStream (symbols_of bs) 0),
         blocks, (mkListDataStream (symbols_of bs) c').
  split; [apply (list_write_blocks bs [] 0)|].
  split; [reflexivity|]. split; [reflexivity|]. split; [exact R | exact S'].
Qed.

Lemma list_round_trip_witness :
  (forall i : nat, (1 <= (fun _ => 2) i)%Z) /\
  no_None (symbols_of [mkDataBlock [PyInt 1; PyInt 2; PyInt 3]; mkDataBlock [PyInt 4]])
  = true /\
  (length (symbols_of [mkDataBlock [PyInt 1; PyInt 2; PyInt 3]; mkDataBlock [PyInt 4]])
   < 5)%nat /\
  exists written rewound blocks final,
    write_blocks [mkDataBlock [PyInt 1; PyInt 2; PyInt 3]; mkDataBlock [PyInt 4]]
      (ListStream.init []) = (Ok tt, written) /\
    input_list written
    = symbols_of [mkDataBlock [PyInt 1; PyInt 2; PyInt 3]; mkDataBlock [PyInt 4]] /\
    reset written = (Ok tt, rewound) /\
    read_blocks 5 (fun _ => 2%Z) 0 rewound = (Ok (Some blocks), final) /\
    symbols_of blocks
    = symbols_of [mkDataBlock [PyInt 1; PyInt 2; PyInt 3]; mkDataBlock [PyInt 4]].
Proof.
  assert (H1 : forall i : nat, (1 <= (fun _ => 2) i)%Z) by (intros; simpl; lia).
  assert (H3 : (length (symbols_of [mkDataBlock [PyInt 1; PyInt 2; PyInt 3];
                                    mkDataBlock [PyInt 4]]) < 5)%nat)
    by (simpl; lia).
  split; [exact H1|]. split; [reflexivity|]. split; [exact H3|].
  exact (list_round_trip
           [mkDataBlock [PyInt 1; PyInt 2; PyInt 3]; mkDataBlock [PyInt 4]]
           (fun _ => 2%Z) 5 H1 eq_refl H3).
Defined.

(** C2, the claim as it is written, fails for a sequence that holds [None]:
    [None] and 1 are written to an empty list stream; after [reset] the first
    [get_block] already returns the end-of-stream value, so nothing is read
    back. *)
Lemma round_trip_None_symbol_counterexample :
  let original := [PyNone; PyInt 1] in
  exists written rewound final,
    write_block (mkDataBlock original) (ListStream.init []) = (Ok tt, written) /\
    input_list written = original /\
    reset written = (Ok tt, rewound) /\
    read_blocks 3 (fun _ => 1%Z) 0 rewound = (Ok (Some []), final) /\
    symbols_of [] <> original.
Proof.
  exists (mkListDataStream [PyNone; PyInt 1] 0),
         (mkListDataStream [PyNone; PyInt 1] 0),
         (mkListDataStream [PyNone; PyInt 1] 1).
  repeat split; discriminate.
Qed.

(** ** File objects *)

Lemma length_set_nth {A} (a : A) (l : list A) : forall n,
  length (set_nth n a l) = length l.
Proof.
  induction l as [|x l IH]; intros [|n]; simpl; try reflexivity.
  now rewrite IH.
Qed.

Lemma nth_error_set_nth {A} (a : A) (l : list A) : forall n,
  (n < length l)%nat -> nth_error (set_nth n a l) n = Some a.
Proof.
  induction l as [|x l IH]; intros [|n] Hn; simpl in *; try lia.
  - reflexivity.
  - apply IH. lia.
Qed.


(** Case analysis on every test the goal is stuck on. *)
Ltac break_tests :=
  repeat match goal with
         | |- context [match ?x with _ => _ end] => destruct x eqn:?
         end.

Lemma same_shape_refl (w : World) : same_shape w w.
Proof. now split. Qed.

Lemma file_read1_shape (h : nat) (w : World) :
  same_shape w (snd (file_read1 h w)).
Proof.
  unfold file_read1. break_tests; cbn [snd]; try apply same_shape_refl;
    split; cbn [trace handles set_handle]; try reflexivity;
    apply length_set_nth.
Qed.

Lemma file_write_shape (h : nat) (s : Symbol) (w : World) :
  same_shape w (snd (file_write h s w)).
Proof.
  unfold file_write. break_tests; cbn [snd]; try apply same_shape_refl;
    split; cbn [trace handles]; try reflexivity; apply length_set_nth.
Qed.

Lemma file_seek0_shape (h : nat) (w : World) :
  same_shape w (snd (file_seek0 h w)).
Proof.
  unfold file_seek0. break_tests; cbn [snd]; try apply same_shape_refl;
    split; cbn [trace handles set_handle]; try reflexivity;
    apply length_set_nth.
Qed.

(** [open] either returns the next handle, with one more file object and
    one more event, or raises and leaves the world alone. *)
Lemma py_open_outcome (path mode : string) (w : World) :
  (exists e, py_open path mode w = (Raise e, w)) \/
  (exists w',
     py_open path mode w = (Ok (length (handles w)), w') /\
     trace w' = trace w ++ [EvOpen (length (handles w))] /\
     exists fo,
       handles w' = handles w ++ [fo] /\ fo_closed fo = false /\
       fo_path fo = path).
Proof.
  unfold py_open.
  destruct (parse_mode mode) as [m|]; [|left; now exists ValueError].
  destruct (reading m), (writing m), (creating m),
    (lookup_file path (files w));
    try (left; eexists; reflexivity);
    right; eexists; (split; [reflexivity|]); cbn [trace handles];
    (split; [reflexivity|]); eexists; repeat split.
Qed.

(** ** FileDataStream: the scope and the file object *)

Lemma on_file_obj_keeps {A} (op : nat -> M World A) s0 t n st :
  (forall h w, same_shape w (snd (op h w))) ->
  in_scope s0 t n st -> in_scope s0 t n (snd (on_file_obj op st)).
Proof.
  intros Hop [Hs [Ht Hn]]. unfold on_file_obj.
  destruct (file_obj (self st)) as [h|]; [|now repeat split].
  destruct (Hop h (world st)) as [Ht' Hn'].
  destruct (op h (world st)) as [r w']. cbn [snd] in *.
  repeat split; cbn [self world]; congruence.
Qed.

Lemma file_get_symbol_keeps s0 t n (st : FileState) :
  in_scope s0 t n st -> in_scope s0 t n (snd (get_symbol st)).
Proof.
  intros Hin. cbn [get_symbol FileDataStream_stream].
  unfold FileStream.get_symbol.
  destruct (cls (self st)); try exact Hin.
  unfold FileStream.text_get_symbol, bind.
  pose proof (on_file_obj_keeps file_read1 s0 t n st file_read1_shape Hin) as K.
  destruct (on_file_obj file_read1 st) as [[s|e] st1]; cbn [snd] in *.
  - now destruct (py_not s).
  - exact K.
Qed.

Lemma file_write_symbol_keeps s0 t n (s : Symbol) (st : FileState) :
  in_scope s0 t n st -> in_scope s0 t n (snd (write_symbol s st)).
Proof.
  intros Hin. cbn [write_symbol FileDataStream_stream].
  unfold FileStream.write_symbol.
  destruct (cls (self st)); try exact Hin.
  unfold FileStream.text_write_symbol.
  apply on_file_obj_keeps; [|exact Hin].
  intros h w. apply file_write_shape.
Qed.

Lemma file_reset_keeps s0 t n (st : FileState) :
  in_scope s0 t n st -> in_scope s0 t n (snd (reset st)).
Proof.
  intros Hin. cbn [reset FileDataStream_stream]. unfold FileStream.reset.
  apply on_file_obj_keeps; [apply file_seek0_shape | exact Hin].
Qed.

Lemma file_call_keeps s0 t n (op : Op) (st : FileState) :
  in_scope s0 t n st -> in_scope s0 t n (snd (call op st)).
Proof.
  intros Hin. destruct op as [| |s|k|b]; unfold call, bind.
  - pose proof (file_reset_keeps s0 t n st Hin) as K.
    now destruct (reset st) as [[u|e] st1].
  - pose proof (file_get_symbol_keeps s0 t n st Hin) as K.
    now destruct (get_symbol st) as [[u|e] st1].
  - pose proof (file_write_symbol_keeps s0 t n s st Hin) as K.
    now destruct (write_symbol s st) as [[u|e] st1].
  - pose proof (get_block_keeps (in_scope s0 t n)
                  (file_get_symbol_keeps s0 t n) k st Hin) as K.
    now destruct (get_block k st) as [[u|e] st1].
  - pose proof (write_symbols_keeps (in_scope s0 t n)
                  (file_write_symbol_keeps s0 t n) (data_list b) st Hin) as K.
    unfold write_block.
    now destruct (write_symbols (data_list b) st) as [[u|e] st1].
Qed.

Lemma file_calls_keeps s0 t n (ops : list Op) : forall st : FileState,
  in_scope s0 t n st -> in_scope s0 t n (snd (calls ops st)).
Proof.
  induction ops as [|op ops IH]; intros st Hin; simpl.
  - exact Hin.
  - unfold bind. pose proof (file_call_keeps s0 t n op st Hin) as K.
    destruct (call op st) as [[v|e] st1]; cbn [snd] in *; [|exact K].
    specialize (IH st1 K).
    now destruct (calls ops st1) as [[vs|e] st2].
Qed.

(** [__enter__] either raises what [open] raises and changes nothing, or
    stores the new file object, which is open. *)
Lemma file_enter_outcome (st : FileState) :
  (exists e, __enter__ st = (Raise e, st)) \/
  (exists st1 fo,
     __enter__ st = (Ok tt, st1) /\
     file_obj (self st1) = Some (length (handles (world st))) /\
     trace (world st1) = trace (world st) ++ [EvOpen (length (handles (world st)))] /\
     handles (world st1) = handles (world st) ++ [fo] /\
     fo_closed fo = false).
Proof.
  cbn [__enter__ FileDataStream_stream]. unfold FileStream.__enter__.
  destruct (py_open_outcome (file_path (self st)) (permissions (self st)) (world st))
    as [[e E] | [w' [E [Ht [fo [Hh [Hc _]]]]]]]; rewrite E.
  - left. exists e. now destruct st.
  - right. exists (mkFileState w'
              (mkFileDataStream (cls (self st)) (file_path (self st))
                 (permissions (self st)) (Some (length (handles (world st)))))), fo.
    repeat split; assumption.
Qed.

(** What a scope whose [__enter__] returned leaves behind: the body ran
    on the entered stream, and [__exit__] closed the file object that
    [__enter__] made, whatever the body did. *)
Lemma file_scope_outcome (st st1 : FileState) (body : list Op) :
  __enter__ st = (Ok tt, st1) ->
  let h := length (handles (world st)) in
  exists r st2 fo2,
    calls body st1 = (r, st2) /\
    nth_error (handles (world st2)) h = Some fo2 /\
    with_ (calls body) st
    = (r, mkFileState
            (mkWorld (files (world st2))
               (set_nth h (set_closed fo2) (handles (world st2)))
               (write_budget (world st2))
               (trace (world st) ++ [EvOpen h; EvClose h]))
            (mkFileDataStream (cls (self st)) (file_path (self st))
               (permissions (self st)) (Some h))).
Proof.
  intros E h. unfold with_. rewrite E.
  destruct (file_enter_outcome st) as [[e E'] | [st1' [fo [E' [Hf [Ht [Hh Hc]]]]]]];
    rewrite E' in E; inversion E; subst st1'.
  assert (Hself : self st1 = mkFileDataStream (cls (self st)) (file_path (self st))
                               (permissions (self st)) (Some h)).
  { cbn [__enter__ FileDataStream_stream] in E'.
    unfold FileStream.__enter__ in E'.
    destruct (py_open (file_path (self st)) (permissions (self st)) (world st))
      as [[h'|e'] w']; inversion E'; subst. cbn [self file_obj] in Hf.
    inversion Hf; subst. reflexivity. }
  assert (Hin : in_scope (self st1) (trace (world st1))
                  (length (handles (world st1))) st1) by now repeat split.
  apply (file_calls_keeps _ _ _ body) in Hin.
  destruct (calls body st1) as [r st2]. cbn [snd] in Hin.
  destruct Hin as [Hs [Ht2 Hn2]].
  assert (Hlt : (h < length (handles (world st2)))%nat).
  { rewrite Hn2, Hh, length_app. simpl. lia. }
  destruct (nth_error (handles (world st2)) h) as [fo2|] eqn:En;
    [|apply nth_error_None in En; lia].
  exists r, st2, fo2. split; [reflexivity|]. split; [exact En|].
  cbn [__exit__ FileDataStream_stream].
  unfold FileStream.__exit__, on_file_obj. rewrite Hs, Hf. fold h.
  unfold file_close. rewrite En. rewrite Ht2, Ht, <- app_assoc, Hself.
  reflexivity.
Qed.


(** ** Calls outside the scope *)

Section Raising_primitives.

Context {St : Type} `{DataStream St}.

(** When [get_symbol] raises, so does [get_block], for every size that
    makes the loop body run. *)
Lemma get_block_raises n st e st' :
  (1 <= n)%Z -> get_symbol st = (Raise e, st') ->
  get_block n st = (Raise e, st').
Proof.
  intros Hn E. unfold get_block.
  destruct (Z.to_nat n) as [|k] eqn:En; [lia|].
  cbn [get_block_loop]. unfold bind. now rewrite E.
Qed.

(** When [write_symbol] raises on the first symbol, so does
    [write_block]. *)
Lemma write_block_raises b s data st e st' :
  data_list b = s :: data -> write_symbol s st = (Raise e, st') ->
  write_block b st = (Raise e, st').
Proof.
  intros Eb E. unfold write_block. rewrite Eb.
  cbn [write_symbols]. unfold bind. now rewrite E.
Qed.

(** A call that touches the stream raises when all three primitives do. *)
Lemma call_raises (P : PyExc -> Prop) op st :
  touches_stream op = true ->
  (exists e, P e /\ reset st = (Raise e, st)) ->
  (exists e, P e /\ get_symbol st = (Raise e, st)) ->
  (forall s, exists e, P e /\ write_symbol s st = (Raise e, st)) ->
  exists e, P e /\ call op st = (Raise e, st).
Proof.
  intros Ht [e1 [P1 E1]] [e2 [P2 E2]] Hw.
  destruct op as [| |s|n|b]; unfold call.
  - exists e1. split; [exact P1|]. unfold bind. now rewrite E1.
  - exists e2. split; [exact P2|]. unfold bind. now rewrite E2.
  - destruct (Hw s) as [e3 [P3 E3]]. exists e3. split; [exact P3|].
    unfold bind. now rewrite E3.
  - exists e2. split; [exact P2|]. simpl in Ht. apply Z.leb_le in Ht.
    unfold bind. now rewrite (get_block_raises n st e2 st Ht E2).
  - simpl in Ht. destruct (data_list b) as [|s data] eqn:Eb; [discriminate|].
    destruct (Hw s) as [e3 [P3 E3]]. exists e3. split; [exact P3|].
    unfold bind. now rewrite (write_block_raises b s data st e3 st Eb E3).
Qed.

End Raising_primitives.

(** Before [__enter__] there is no [file_obj]. *)
Lemma unopened_call (st : FileState) (op : Op) :
  cls (self st) = TextFileDataStream_ -> file_obj (self st) = None ->
  touches_stream op = true ->
  call op st = (Raise AttributeError, st).
Proof.
  intros Hc Hf Ht.
  destruct (call_raises (fun e => e = AttributeError) op st Ht) as [e [-> E]];
    [| | |exact E].
  - exists AttributeError. split; [reflexivity|].
    cbn [reset FileDataStream_stream].
    unfold FileStream.reset, on_file_obj. now rewrite Hf.
  - exists AttributeError. split; [reflexivity|].
    cbn [get_symbol FileDataStream_stream].
    unfold FileStream.get_symbol. rewrite Hc.
    unfold FileStream.text_get_symbol, bind, on_file_obj. now rewrite Hf.
  - intros s. exists AttributeError. split; [reflexivity|].
    cbn [write_symbol FileDataStream_stream].
    unfold FileStream.write_symbol. rewrite Hc.
    unfold FileStream.text_write_symbol, on_file_obj. now rewrite Hf.
Qed.

(** On a closed file object every file operation of the stream raises and
    changes nothing. *)
Lemma closed_file_ops (h : nat) (fo : FileHandle) (w : World) :
  nth_error (handles w) h = Some fo -> fo_closed fo = true ->
  (exists e, file_read1 h w = (Raise e, w)) /\
  (forall s, exists e, file_write h s w = (Raise e, w)) /\
  file_seek0 h w = (Raise ValueError, w).
Proof.
  intros En Hc. unfold file_read1, file_write, file_seek0. rewrite En, Hc.
  split; [|split].
  - destruct (fo_binary fo && negb (fo_readable fo)); eexists; reflexivity.
  - intros s. destruct (fo_binary fo && negb (fo_writable fo));
      [eexists; reflexivity|].
    destruct (payload (fo_binary fo) s); eexists; reflexivity.
  - reflexivity.
Qed.

Lemma closed_call (st : FileState) (op : Op) :
  cls (self st) = TextFileDataStream_ -> handle_closed st ->
  touches_stream op = true ->
  exists e, call op st = (Raise e, st).
Proof.
  intros Hk [h [fo [Hf [En Hc]]]] Ht.
  destruct (closed_file_ops h fo (world st) En Hc) as [[er Er] [Hw Es]].
  destruct (call_raises (fun _ => True) op st Ht) as [e [_ E]];
    [| | |now exists e].
  - exists ValueError. split; [exact I|].
    cbn [reset FileDataStream_stream].
    unfold FileStream.reset, on_file_obj. rewrite Hf, Es. now destruct st.
  - exists er. split; [exact I|].
    cbn [get_symbol FileDataStream_stream].
    unfold FileStream.get_symbol. rewrite Hk.
    unfold FileStream.text_get_symbol, bind, on_file_obj.
    rewrite Hf, Er. now destruct st.
  - intros s. destruct (Hw s) as [ew Ew]. exists ew. split; [exact I|].
    cbn [write_symbol FileDataStream_stream].
    unfold FileStream.write_symbol. rewrite Hk.
    unfold FileStream.text_write_symbol, on_file_obj.
    rewrite Hf, Ew. now destruct st.
Qed.

(** C4 (as the code has it).  The classes keep no lifecycle state.  A list
    stream is the same object before, inside and after a scope: [__enter__]
    and [__exit__] return without changing it, so every call does what it
    does inside the scope.  A text file stream has no [file_obj] before its
    first [__enter__], and every call that touches the stream raises
    [AttributeError]; once a scope is left its file object is closed and
    every such call raises; neither changes anything.  [__enter__] never
    looks at an earlier file object: on an instance whose scope was left it
    opens the file again exactly as on a new instance. *)
Theorem lifecycle_as_coded :
  (forall ds : ListDataStream,
     __enter__ ds = (Ok tt, ds) /\ __exit__ ds = (Ok tt, ds)) /\
  (forall (w : World) (path : string) (perms : option string) (op : Op),
     touches_stream op = true ->
     call op (mkFileState w (FileStream.init TextFileDataStream_ path perms))
     = (Raise AttributeError,
        mkFileState w (FileStream.init TextFileDataStream_ path perms))) /\
  (forall (st : FileState) (body : list Op) (op : Op),
     cls (self st) = TextFileDataStream_ ->
     is_Ok (fst (__enter__ st)) = true ->
     touches_stream op = true ->
     exists e,
       call op (snd (with_ (calls body) st))
       = (Raise e, snd (with_ (calls body) st))) /\
  (forall st : FileState,
     fst (__enter__ st) = fst (__enter__ (without_file_obj st)) /\
     world (snd (__enter__ st)) = world (snd (__enter__ (without_file_obj st))) /\
     file_obj (self (snd (__enter__ st)))
     = match fst (__enter__ st) with
       | Ok _ => Some (length (handles (world st)))
       | Raise _ => file_obj (self st)
       end).
Proof.
  split; [|split; [|split]].
  - intros ds. now split.
  - intros w path perms op Ht. now apply unopened_call.
  - intros st body op Hk Hok Ht.
    destruct (file_enter_outcome st) as [[e E] | [st1 [fo [E _]]]];
      rewrite E in Hok; [discriminate|].
    destruct (file_scope_outcome st st1 body E) as [r [st2 [fo2 [_ [En W]]]]].
    rewrite W. cbn [snd]. apply closed_call; [exact Hk | | exact Ht].
    exists (length (handles (world st))), (set_closed fo2).
    cbn [self world handles file_obj].
    split; [reflexivity|]. split; [|reflexivity].
    apply nth_error_set_nth. apply nth_error_Some. now rewrite En.
  - intros st. cbn [__enter__ FileDataStream_stream].
    unfold FileStream.__enter__, without_file_obj. cbn [world self file_path permissions].
    destruct (py_open_outcome (file_path (self st)) (permissions (self st)) (world st))
      as [[e E] | [w' [E _]]]; rewrite E; now repeat split.
Qed.

Lemma lifecycle_as_coded_witness :
  touches_stream (GetBlock 4) = true /\
  cls (self (mkFileState (world_with "tmp_file.txt" "This_is_a_test_file")
               (FileStream.init TextFileDataStream_ "tmp_file.txt" None)))
  = TextFileDataStream_ /\
  is_Ok (fst (__enter__
                (mkFileState (world_with "tmp_file.txt" "This_is_a_test_file")
                   (FileStream.init TextFileDataStream_ "tmp_file.txt" None))))
  = true /\
  call (GetBlock 4)
    (mkFileState (world_with "tmp_file.txt" "This_is_a_test_file")
       (FileStream.init TextFileDataStream_ "tmp_file.txt" None))
  = (Raise AttributeError,
     mkFileState (world_with "tmp_file.txt" "This_is_a_test_file")
       (FileStream.init TextFileDataStream_ "tmp_file.txt" None)) /\
  exists e,
    call (GetBlock 4)
      (snd (with_ (calls [GetSymbol])
              (mkFileState (world_with "tmp_file.txt" "This_is_a_test_file")
                 (FileStream.init TextFileDataStream_ "tmp_file.txt" None))))
    = (Raise e,
       snd (with_ (calls [GetSymbol])
              (mkFileState (world_with "tmp_file.txt" "This_is_a_test_file")
                 (FileStream.init TextFileDataStream_ "tmp_file.txt" None)))).
Proof.
  split; [reflexivity|]. split; [reflexivity|]. split; [reflexivity|]. split.
  - exact (proj1 (proj2 lifecycle_as_coded)
             (world_with "tmp_file.txt" "This_is_a_test_file")
             "tmp_file.txt"%string None (GetBlock 4) eq_refl).
  - exact (proj1 (proj2 (proj2 lifecycle_as_coded))
             (mkFileState (world_with "tmp_file.txt" "This_is_a_test_file")
                (FileStream.init TextFileDataStream_ "tmp_file.txt" None))
             [GetSymbol] (GetBlock 4) eq_refl eq_refl eq_refl).
Defined.

(** C4, the claim as it is written, fails.  A list stream that was never
    entered, and one whose scope was left, both hand out their first symbol;
    a text file stream whose scope was left is entered again and reads the
    first character of its file once more. *)
Lemma lifecycle_counterexample :
  let ds := ListStream.init [PyInt 1] in
  let fds := mkFileState (world_with "tmp_file.txt" "ab")
               (FileStream.init TextFileDataStream_ "tmp_file.txt" (Some "r"%string)) in
  fst (call GetSymbol ds) = Ok (VSymbol (PyInt 1)) /\
  fst (call GetSymbol (snd (with_ (calls []) ds))) = Ok (VSymbol (PyInt 1)) /\
  fst (with_ (calls [GetSymbol]) fds) = Ok [VSymbol (PyStr "a")] /\
  handle_closed (snd (with_ (calls [GetSymbol]) fds)) /\
  fst (with_ (calls [GetSymbol]) (snd (with_ (calls [GetSymbol]) fds)))
  = Ok [VSymbol (PyStr "a")].
Proof.
  repeat split.
  exists 0%nat. eexists. repeat split.
Qed.

(** ** The classes of the file family *)

(** C5 (as the code has it).  [Uint8FileDataStream] has an empty body, so
    [get_symbol] and [write_symbol] are still the abstract ones of
    [DataStream]; calling the class raises [TypeError], for every path and
    every permissions, and a client never gets an object to call anything
    on: its whole use raises that [TypeError] and leaves the file system
    untouched, where the same use of [TextFileDataStream] goes through. *)
Theorem uint8_stream_cannot_be_made :
  forall (path : string) (perms : option string) (body : list Op) (w : World),
    abstractmethods Uint8FileDataStream_cls = [m_get_symbol; m_write_symbol] /\
    FileStream.new Uint8FileDataStream_ path perms = Raise TypeError /\
    use_file_stream Uint8FileDataStream_ path perms body w = (Raise TypeError, w) /\
    abstractmethods TextFileDataStream_cls = [] /\
    FileStream.new TextFileDataStream_ path perms
    = Ok (FileStream.init TextFileDataStream_ path perms).
Proof.
  intros path perms body w. repeat split.
Qed.

(** C5, the claim as it is written, fails: what a client of the byte
    backend gets is the [TypeError] of the instantiation, before any
    operation is called, not a [NotImplementedError] from the operation. *)
Lemma uint8_stream_counterexample :
  use_file_stream Uint8FileDataStream_ "data.bin" None [GetSymbol] empty_world
  = (Raise TypeError, empty_world) /\
  use_file_stream Uint8FileDataStream_ "data.bin" None [GetSymbol] empty_world
  <> (Raise NotImplementedError, empty_world).
Proof.
  split; [reflexivity | discriminate].
Qed.

(** C6 (as the code has it).  [FileDataStream.__init__] keeps whatever
    permissions string it is given, ["r"] when none is given, and checks
    nothing; the string goes to [open] unchanged when the scope is entered,
    and it is [open] that accepts or refuses it. *)
Theorem permissions_kept_unchecked :
  forall (k : FileClass) (path perms : string) (w : World),
    FileStream.init k path (Some perms) = mkFileDataStream k path perms None /\
    FileStream.init k path None = mkFileDataStream k path "r" None /\
    FileStream.new TextFileDataStream_ path (Some perms)
    = Ok (mkFileDataStream TextFileDataStream_ path perms None) /\
    fst (__enter__ (mkFileState w (FileStream.init k path (Some perms))))
    = match fst (py_open path perms w) with
      | Ok _ => Ok tt
      | Raise e => Raise e
      end.
Proof.
  intros k path perms w. repeat split.
  cbn [__enter__ FileDataStream_stream]. unfold FileStream.__enter__.
  cbn [world self file_path permissions FileStream.init].
  now destruct (py_open path perms w) as [[h|e] w'].
Qed.

(** C6, the claim as it is written, fails: a stream is constructed with
    the permissions ["a+"], and its scope opens the file for appending and
    reading. *)
Lemma permissions_counterexample :
  let s := mkFileDataStream TextFileDataStream_ "tmp_file.txt" "a+" None in
  FileStream.new TextFileDataStream_ "tmp_file.txt" (Some "a+"%string) = Ok s /\
  permissions s <> "r"%string /\ permissions s <> "w"%string /\
  exists st1 fo,
    __enter__ (mkFileState empty_world s) = (Ok tt, st1) /\
    nth_error (handles (world st1)) 0 = Some fo /\
    fo_appending fo = true /\ fo_readable fo = true /\ fo_writable fo = true.
Proof.
  split; [reflexivity|]. split; [discriminate|]. split; [discriminate|].
  eexists. eexists. repeat split.
Qed.

(** ** reset *)

Section Reset_facts.

Context {St : Type} `{DataStream St}.




End Reset_facts.










(** ** The tests of the module, and two error paths *)

(** [test_list_data_stream]: ten symbols read in blocks of 3, 3, 3; then a
    request for 2 gives the one symbol left and the next gives [None]. *)
Example test_list_data_stream :
  fst (calls [GetBlock 3; GetBlock 3; GetBlock 3; GetBlock 2; GetBlock 2]
         (ListStream.init range10))
  = Ok [VBlock (mkDataBlock [PyInt 0; PyInt 1; PyInt 2]);
        VBlock (mkDataBlock [PyInt 3; PyInt 4; PyInt 5]);
        VBlock (mkDataBlock [PyInt 6; PyInt 7; PyInt 8]);
        VBlock (mkDataBlock [PyInt 9]);
        VNone].
Proof. reflexivity. Qed.

(** [test_file_data_stream]: the text is written in a ["w"] scope and the
    first block of 4 read in an ["r"] scope on the file that results. *)
Example test_file_data_stream :
  let '(r1, w1) :=
    use_file_stream TextFileDataStream_ "tmp_file.txt" (Some "w"%string)
      [WriteBlock (mkDataBlock (chars "This_is_a_test_file"))] empty_world in
  let '(r2, w2) :=
    use_file_stream TextFileDataStream_ "tmp_file.txt" (Some "r"%string)
      [GetBlock 4] w1 in
  r1 = Ok [VNone] /\
  content w1 "tmp_file.txt" = list_ascii_of_string "This_is_a_test_file" /\
  r2 = Ok [VBlock (mkDataBlock (chars "This"))] /\
  trace w2 = [EvOpen 0; EvClose 0; EvOpen 1; EvClose 1].
Proof. vm_compute. repeat split. Qed.

(** The device refuses the third write of a [write_block]: the exception
    leaves the scope, the two characters written stay in the file, and the
    file object is closed once. *)
Example write_block_fails_partway :
  let w := mkWorld [] [] (Some 2%nat) [] in
  let '(r, w') :=
    use_file_stream TextFileDataStream_ "tmp_file.txt" (Some "w"%string)
      [WriteBlock (mkDataBlock (chars "This"))] w in
  r = Raise OSError /\
  content w' "tmp_file.txt" = list_ascii_of_string "Th" /\
  trace w' = [EvOpen 0; EvClose 0] /\
  option_map fo_closed (nth_error (handles w') 0) = Some true.
Proof. vm_compute. repeat split. Qed.

(** A text file stream entered on a file that holds [ab] hands out the two
    characters and then returns [None]. *)
Example text_file_hands_out :
  let st1 :=
    snd (__enter__ (mkFileState (world_with "tmp_file.txt" "ab")
                      (FileStream.init TextFileDataStream_ "tmp_file.txt" None))) in
  exists st', hands_out st1 (chars "ab") st' /\ get_symbol st' = (Ok PyNone, st').
Proof.
  eexists. split.
  - eapply hands_out_cons; [reflexivity | reflexivity |].
    eapply hands_out_cons; [reflexivity | reflexivity |].
    apply hands_out_nil.
  - reflexivity.
Qed.

(** A file opened with ["w"] cannot be read: the round trip of a list
    stream has no counterpart inside one ["w"] scope. *)
Example write_scope_cannot_read :
  fst (use_file_stream TextFileDataStream_ "tmp_file.txt" (Some "w"%string)
         [WriteBlock (mkDataBlock (chars "ab")); Reset; GetBlock 2] empty_world)
  = Raise UnsupportedOperation.
Proof. reflexivity. Qed.

(** * More of the module *)

(** ** Blocks written one after the other *)

Section Write_facts.

Context {St : Type} `{DataStream St}.

Lemma write_symbols_app (l1 l2 : list Symbol) : forall st : St,
  write_symbols (l1 ++ l2) st = (write_symbols l1 ;;; write_symbols l2) st.
Proof.
  induction l1 as [|s l1 IH]; intros st.
  - reflexivity.
  - cbn [app write_symbols]. unfold bind in *.
    destruct (write_symbol s st) as [[u|e] st1]; [|reflexivity].
    apply IH.
Qed.

(** [write_block] has no state of its own between symbols: writing the
    symbols of two blocks as one block does what writing the first block
    and then the second does, exceptions included. *)
Theorem write_block_app (l1 l2 : list Symbol) (st : St) :
  write_block (mkDataBlock (l1 ++ l2)) st
  = (write_block (mkDataBlock l1) ;;; write_block (mkDataBlock l2)) st.
Proof.
  unfold write_block. cbn [data_list]. apply write_symbols_app.
Qed.

(** [write_block] is not atomic: when [write_symbol] raises on a symbol,
    the symbols before it have been written and stay written, the exception
    goes to the caller, and the symbols after it are never tried. *)
Theorem write_block_stops_at_failure
  (l1 l2 : list Symbol) (s : Symbol) (st st1 st2 : St) (e : PyExc) :
  write_block (mkDataBlock l1) st = (Ok tt, st1) ->
  write_symbol s st1 = (Raise e, st2) ->
  write_block (mkDataBlock (l1 ++ s :: l2)) st = (Raise e, st2).
Proof.
  unfold write_block. cbn [data_list]. intros E1 E2.
  rewrite write_symbols_app. unfold bind at 1. rewrite E1.
  cbn [write_symbols]. unfold bind. now rewrite E2.
Qed.

End Write_facts.

Lemma write_block_stops_at_failure_witness :
  let st := snd (__enter__ (mkFileState empty_world
                  (FileStream.init TextFileDataStream_ "tmp_file.txt"
                     (Some "w"%string)))) in
  let st1 := snd (write_block (mkDataBlock (chars "Th")) st) in
  write_block (mkDataBlock (chars "Th")) st = (Ok tt, st1) /\
  write_symbol (PyInt 5) st1 = (Raise TypeError, st1) /\
  content (world st1) "tmp_file.txt" = list_ascii_of_string "Th" /\
  write_block (mkDataBlock (chars "Th" ++ PyInt 5 :: chars "is")) st
  = (Raise TypeError, st1).
Proof.
  intros st st1.
  assert (E1 : write_block (mkDataBlock (chars "Th")) st = (Ok tt, st1))
    by reflexivity.
  assert (E2 : write_symbol (PyInt 5) st1 = (Raise TypeError, st1))
    by reflexivity.
  split; [exact E1|]. split; [exact E2|]. split; [reflexivity|].
  exact (write_block_stops_at_failure (chars "Th") (chars "is") (PyInt 5)
           st st1 st1 TypeError E1 E2).
Defined.

(** ** More on ListDataStream *)

(** From the counter on, a list stream hands out the symbols up to the
    first [None]. *)
Lemma list_hands_out (l1 : list Symbol) : forall before rest : list Symbol,
  no_None l1 = true ->
  hands_out (mkListDataStream (before ++ l1 ++ rest) (Z.of_nat (length before)))
    l1
    (mkListDataStream (before ++ l1 ++ rest)
       (Z.of_nat (length before + length l1))).
Proof.
  induction l1 as [|s l1 IH]; intros before rest Hnn.
  - rewrite Nat.add_0_r. constructor.
  - cbn [no_None forallb] in Hnn. apply andb_true_iff in Hnn.
    destruct Hnn as [Hs Hnn].
    assert (Hi : (length before < length (before ++ (s :: l1) ++ rest))%nat)
      by (rewrite !length_app; simpl; lia).
    destruct (list_get_symbol_next _ _ Hi) as [x [E G]].
    rewrite nth_error_app2, Nat.sub_diag in E by lia. simpl in E.
    inversion E; subst x.
    apply hands_out_cons with
      (st1 := mkListDataStream (before ++ (s :: l1) ++ rest)
                (Z.of_nat (S (length before)))).
    + exact G.
    + now destruct (is_None s).
    + specialize (IH (before ++ [s]) rest Hnn).
      rewrite length_app in IH. cbn [length] in IH.
      replace ((before ++ [s]) ++ l1 ++ rest)
        with (before ++ (s :: l1) ++ rest) in IH
        by (rewrite <- app_assoc; reflexivity).
      replace (length before + 1)%nat with (S (length before)) in IH by lia.
      cbn [length].
      replace (length before + S (length l1))%nat
        with (S (length before) + length l1)%nat by lia.
      exact IH.
Qed.

(** A [None] stored in the list ends the block and is used up: asked for
    more symbols than come before the [None], [get_block] returns those
    symbols (or [None] when there are none) and leaves the counter just past
    the [None], so the next call goes on with what follows it. *)
Theorem get_block_stops_at_None
  (before l1 l2 : list Symbol) (n : Z) :
  no_None l1 = true ->
  (Z.of_nat (length l1) < n)%Z ->
  get_block n (mkListDataStream (before ++ l1 ++ PyNone :: l2)
                 (Z.of_nat (length before)))
  = (Ok (match l1 with
         | [] => None
         | _ :: _ => Some (mkDataBlock l1)
         end),
     mkListDataStream (before ++ l1 ++ PyNone :: l2)
       (Z.of_nat (length before + length l1 + 1))).
Proof.
  intros Hnn Hn.
  pose proof (list_hands_out l1 before (PyNone :: l2) Hnn) as Hh.
  assert (Hi : (length before + length l1
                < length (before ++ l1 ++ PyNone :: l2))%nat)
    by (rewrite !length_app; simpl; lia).
  destruct (list_get_symbol_next _ _ Hi) as [x [E G]].
  rewrite nth_error_app2 in E by lia.
  rewrite nth_error_app2 in E by lia.
  replace (length before + length l1 - length before - length l1)%nat
    with 0%nat in E by lia.
  simpl in E. inversion E; subst x.
  destruct (get_block_loop_hands_out _ _ _ Hh (Z.to_nat n) []) as [_ L].
  unfold get_block. rewrite (bind_Ok _ (L ltac:(lia) _ G)). cbn [app].
  replace (S (length before + length l1)) with (length before + length l1 + 1)%nat
    by lia.
  now destruct l1.
Qed.

Lemma get_block_stops_at_None_witness :
  no_None [PyInt 1; PyInt 2] = true /\
  (Z.of_nat (length [PyInt 1; PyInt 2]) < 5)%Z /\
  get_block 5 (mkListDataStream ([PyInt 0] ++ [PyInt 1; PyInt 2] ++ PyNone :: [PyInt 4])
                 (Z.of_nat (length [PyInt 0])))
  = (Ok (Some (mkDataBlock [PyInt 1; PyInt 2])),
     mkListDataStream ([PyInt 0] ++ [PyInt 1; PyInt 2] ++ PyNone :: [PyInt 4])
       (Z.of_nat (length [PyInt 0] + length [PyInt 1; PyInt 2] + 1))).
Proof.
  assert (H : (Z.of_nat (length [PyInt 1; PyInt 2]) < 5)%Z) by (simpl; lia).
  split; [reflexivity|]. split; [exact H|].
  exact (get_block_stops_at_None [PyInt 0] [PyInt 1; PyInt 2] [PyInt 4] 5%Z
           eq_refl H).
Defined.

Lemma firstn_plus {A} (l : list A) : forall n m,
  firstn (n + m) l = firstn n l ++ firstn m (skipn n l).
Proof.
  induction l as [|x l IH]; intros [|n] m; simpl.
  - now rewrite firstn_nil.
  - now rewrite firstn_nil.
  - reflexivity.
  - now rewrite IH.
Qed.

Lemma skipn_min_length {A} (l : list A) (n : nat) :
  skipn (Nat.min n (length l)) l = skipn n l.
Proof.
  destruct (Nat.le_ge_cases n (length l)) as [Hle|Hge].
  - now rewrite Nat.min_l.
  - rewrite Nat.min_r by exact Hge. now rewrite !skipn_all2 by lia.
Qed.

Lemma block_symbols_of_list (data : list Symbol) :
  block_symbols (match data with
                 | [] => None
                 | s :: d => Some (mkDataBlock (s :: d))
                 end) = data.
Proof. now destruct data. Qed.

(** Blocks follow one another: as long as no [None] is met, a block of up
    to [n] symbols and then one of up to [m] hold together what one block of
    up to [n + m] holds, and leave the stream in the same state. *)
Theorem get_block_consecutive (l : list Symbol) (c n m : Z) :
  (0 <= c)%Z -> (0 <= n)%Z -> (0 <= m)%Z ->
  no_None (firstn (Z.to_nat (n + m)) (remaining (mkListDataStream l c))) = true ->
  exists o1 ds1 o2 ds2 o,
    get_block n (mkListDataStream l c) = (Ok o1, ds1) /\
    get_block m ds1 = (Ok o2, ds2) /\
    get_block (n + m) (mkListDataStream l c) = (Ok o, ds2) /\
    block_symbols o = block_symbols o1 ++ block_symbols o2.
Proof.
  intros Hc Hn Hm Hnn.
  unfold remaining in Hnn. cbn [input_list current_ind] in Hnn.
  set (rest := skipn (Z.to_nat c) l) in *.
  set (k1 := Nat.min (Z.to_nat n) (length rest)).
  rewrite Z2Nat.inj_add in Hnn by assumption.
  assert (Hsplit : firstn (Z.to_nat n + Z.to_nat m) rest
                   = firstn (Z.to_nat n) rest
                     ++ firstn (Z.to_nat m) (skipn k1 rest)).
  { rewrite firstn_plus. subst k1. now rewrite skipn_min_length. }
  assert (Hrest1 : skipn (Z.to_nat (c + Z.of_nat k1)) l = skipn k1 rest).
  { subst rest. rewrite skipn_skipn. f_equal. lia. }
  rewrite Hsplit in Hnn. unfold no_None in Hnn.
  rewrite forallb_app in Hnn. apply andb_true_iff in Hnn.
  destruct Hnn as [Hnn1 Hnn2].
  pose proof (list_get_block l c n Hc) as G1.
  unfold remaining in G1. cbn [input_list current_ind] in G1.
  fold rest k1 in G1. specialize (G1 Hnn1).
  pose proof (list_get_block l (c + Z.of_nat k1) m ltac:(lia)) as G2.
  unfold remaining in G2. cbn [input_list current_ind] in G2.
  rewrite Hrest1 in G2. specialize (G2 Hnn2).
  pose proof (list_get_block l c (n + m) Hc) as G.
  unfold remaining in G. cbn [input_list current_ind] in G.
  fold rest in G. rewrite Z2Nat.inj_add in G by assumption.
  rewrite Hsplit in G. unfold no_None in G. rewrite forallb_app in G.
  specialize (G ltac:(apply andb_true_iff; split; assumption)).
  eexists. eexists. eexists. eexists. eexists.
  split; [exact G1|]. split; [exact G2|]. split.
  - rewrite G. f_equal. f_equal.
    rewrite length_skipn. subst k1. lia.
  - now rewrite !block_symbols_of_list.
Qed.

Lemma get_block_consecutive_witness :
  (0 <= 0)%Z /\ (0 <= 3)%Z /\ (0 <= 4)%Z /\
  no_None (firstn (Z.to_nat (3 + 4)) (remaining (mkListDataStream range10 0))) = true /\
  exists o1 ds1 o2 ds2 o,
    get_block 3 (mkListDataStream range10 0) = (Ok o1, ds1) /\
    get_block 4 ds1 = (Ok o2, ds2) /\
    get_block (3 + 4) (mkListDataStream range10 0) = (Ok o, ds2) /\
    block_symbols o = block_symbols o1 ++ block_symbols o2.
Proof.
  assert (H0 : (0 <= 0)%Z) by lia.
  assert (H3 : (0 <= 3)%Z) by lia.
  assert (H4 : (0 <= 4)%Z) by lia.
  split; [exact H0|]. split; [exact H3|]. split; [exact H4|].
  split; [reflexivity|].
  exact (get_block_consecutive range10 0%Z 3%Z 4%Z H0 H3 H4 eq_refl).
Defined.

(** What is written to a list stream joins the end of what is still to be
    read: [write_block] returns, keeps the counter, and the symbols that
    remain are the ones that remained followed by the block's. *)
Theorem write_block_extends_remaining (b : DataBlock) (ds : ListDataStream) :
  in_bounds ds ->
  exists ds',
    write_block b ds = (Ok tt, ds') /\
    current_ind ds' = current_ind ds /\
    remaining ds' = remaining ds ++ data_list b.
Proof.
  destruct ds as [l c]. unfold in_bounds. cbn [input_list current_ind].
  intros Hb. exists (mkListDataStream (l ++ data_list b) c).
  split; [apply list_write_symbols|]. split; [reflexivity|].
  unfold remaining. cbn [input_list current_ind].
  rewrite skipn_app.
  replace (Z.to_nat c - length l)%nat with 0%nat by lia. reflexivity.
Qed.

Lemma write_block_extends_remaining_witness :
  in_bounds (mkListDataStream [PyInt 1; PyInt 2; PyInt 3] 2) /\
  exists ds',
    write_block (mkDataBlock [PyInt 4; PyInt 5])
      (mkListDataStream [PyInt 1; PyInt 2; PyInt 3] 2) = (Ok tt, ds') /\
    current_ind ds' = 2%Z /\
    remaining ds' = [PyInt 3] ++ [PyInt 4; PyInt 5].
Proof.
  assert (H : in_bounds (mkListDataStream [PyInt 1; PyInt 2; PyInt 3] 2))
    by (unfold in_bounds; simpl; lia).
  split; [exact H|].
  exact (write_block_extends_remaining (mkDataBlock [PyInt 4; PyInt 5])
           (mkListDataStream [PyInt 1; PyInt 2; PyInt 3] 2) H).
Defined.

(** *** Reading a list in blocks of one size *)

Lemma full_blocks_head (n : Z) (b : DataBlock) (bs : list DataBlock) :
  (1 <= n)%Z -> full_blocks n (b :: bs) = true -> (1 <= size b <= n)%Z.
Proof.
  intros Hn Hf. cbn [full_blocks] in Hf.
  destruct bs; apply andb_true_iff in Hf; destruct Hf as [H1 H2].
  - apply Z.leb_le in H1, H2. lia.
  - apply Z.eqb_eq in H1. lia.
Qed.

(** Reading a list stream to its end with one block size [n]: the blocks
    hold what remained, each but the last has [n] symbols and the last has
    between 1 and [n]. *)
Lemma list_read_full_blocks (l : list Symbol) (n : Z) :
  (1 <= n)%Z ->
  forall (fuel i c : nat),
    no_None (skipn c l) = true ->
    (length (skipn c l) < fuel)%nat ->
    exists blocks c',
      read_blocks fuel (fun _ => n) i (mkListDataStream l (Z.of_nat c))
      = (Ok (Some blocks), mkListDataStream l c') /\
      symbols_of blocks = skipn c l /\
      full_blocks n blocks = true.
Proof.
  intros Hn fuel. induction fuel as [|fuel IH]; intros i c Hnn Hfuel; [lia|].
  cbn [read_blocks].
  pose proof (list_get_block l (Z.of_nat c) n ltac:(lia)) as G.
  unfold remaining in G. cbn [input_list current_ind] in G.
  rewrite Nat2Z.id in G.
  specialize (G (no_None_firstn _ _ Hnn)).
  rewrite (bind_Ok _ G).
  destruct (firstn (Z.to_nat n) (skipn c l)) as [|s data] eqn:F.
  - exists [], (Z.of_nat c + Z.of_nat (Nat.min (Z.to_nat n)
                                      (length (skipn c l))))%Z.
    split; [reflexivity|]. split; [|reflexivity].
    destruct (skipn c l) as [|x rest]; [reflexivity|].
    destruct (Z.to_nat n) eqn:En; [lia | discriminate].
  - set (m := Nat.min (Z.to_nat n) (length (skipn c l))) in *.
    assert (Hlen : length (s :: data) = m).
    { rewrite <- F, length_firstn. reflexivity. }
    assert (Hm : (1 <= m)%nat) by (rewrite <- Hlen; simpl; lia).
    replace (Z.of_nat c + Z.of_nat m)%Z with (Z.of_nat (c + m)) by lia.
    assert (Hsk : skipn (c + m) l = skipn (Z.to_nat n) (skipn c l)).
    { replace (c + m)%nat with (m + c)%nat by lia.
      rewrite <- skipn_skipn. apply skipn_min_length. }
    destruct (IH (S i) (c + m)%nat) as [blocks [c' [R [S' Hf]]]].
    + rewrite Hsk. now apply no_None_skipn.
    + rewrite Hsk, length_skipn.
      pose proof (length_skipn c l) as Hl. subst m. lia.
    + rewrite (bind_Ok _ R). exists (mkDataBlock (s :: data) :: blocks), c'.
      split; [reflexivity|]. split.
      * unfold symbols_of in *. cbn [map concat data_list].
        rewrite S', Hsk, <- F. apply firstn_skipn.
      * cbn [full_blocks].
        destruct blocks as [|b2 blocks].
        -- unfold size. cbn [data_list]. rewrite Hlen.
           apply andb_true_iff. split; apply Z.leb_le; subst m; lia.
        -- rewrite Hf, andb_true_r. apply Z.eqb_eq.
           pose proof (full_blocks_head n b2 blocks Hn Hf) as Hb2.
           assert (Hne : (1 <= length (skipn (Z.to_nat n) (skipn c l)))%nat).
           { rewrite <- Hsk, <- S'. unfold symbols_of. cbn [map concat].
             rewrite length_app. unfold size in Hb2. lia. }
           rewrite length_skipn in Hne.
           unfold size. cbn [data_list]. rewrite Hlen. subst m. lia.
Qed.

(** Read to its end in blocks of one size [n >= 1], a list without [None]
    comes back cut into blocks that hold its symbols in order, each of them
    with exactly [n] symbols but the last, which has between 1 and [n]. *)
Theorem read_blocks_cuts_evenly (l : list Symbol) (n : Z) (fuel : nat) :
  (1 <= n)%Z -> no_None l = true -> (length l < fuel)%nat ->
  exists blocks final,
    read_blocks fuel (fun _ => n) 0 (ListStream.init l)
    = (Ok (Some blocks), final) /\
    symbols_of blocks = l /\
    full_blocks n blocks = true.
Proof.
  intros Hn Hnn Hfuel.
  destruct (list_read_full_blocks l n Hn fuel 0 0 Hnn Hfuel)
    as [blocks [c' [R [S' Hf]]]].
  exists blocks, (mkListDataStream l c'). split; [exact R|]. now split.
Qed.

Lemma read_blocks_cuts_evenly_witness :
  (1 <= 3)%Z /\ no_None range10 = true /\ (length range10 < 11)%nat /\
  exists blocks final,
    read_blocks 11 (fun _ => 3%Z) 0 (ListStream.init range10)
    = (Ok (Some blocks), final) /\
    symbols_of blocks = range10 /\
    full_blocks 3 blocks = true.
Proof.
  assert (H3 : (1 <= 3)%Z) by lia.
  assert (Hf : (length range10 < 11)%nat) by (simpl; lia).
  split; [exact H3|]. split; [reflexivity|]. split; [exact Hf|].
  exact (read_blocks_cuts_evenly range10 3%Z 11%nat H3 eq_refl Hf).
Defined.

(** ** More on the file streams *)

(** What [read(1)] returns is the empty string or one character. *)
Lemma file_read1_value (h : nat) (w w' : World) (s : Symbol) :
  file_read1 h w = (Ok s, w') -> py_not s = true \/ is_char s = true.
Proof.
  unfold file_read1. break_tests; intros E; inversion E; subst;
    try (left; reflexivity); right; reflexivity.
Qed.

(** [get_symbol] of a file stream never returns an empty string: it returns
    [None], or a string (bytes, for a binary file) of one character. *)
Theorem file_get_symbol_None_or_char (st st' : FileState) (s : Symbol) :
  get_symbol st = (Ok s, st') -> s = PyNone \/ is_char s = true.
Proof.
  cbn [get_symbol FileDataStream_stream]. unfold FileStream.get_symbol.
  destruct (cls (self st));
    try (intros E; inversion E; left; reflexivity).
  unfold FileStream.text_get_symbol, bind, on_file_obj.
  destruct (file_obj (self st)) as [h|]; [|discriminate].
  destruct (file_read1 h (world st)) as [[x|e] w'] eqn:R; [|discriminate].
  destruct (file_read1_value h (world st) w' x R) as [Hn|Hc].
  - rewrite Hn. intros E. inversion E. now left.
  - destruct (py_not x); intros E; inversion E; subst; [now left | now right].
Qed.

Lemma file_get_symbol_None_or_char_witness :
  let st := snd (__enter__ (mkFileState (world_with "tmp_file.txt" "ab")
                  (FileStream.init TextFileDataStream_ "tmp_file.txt" None))) in
  get_symbol st = (Ok (PyStr "a"), snd (get_symbol st)) /\
  (PyStr "a" = PyNone \/ is_char (PyStr "a") = true).
Proof.
  intros st.
  assert (E : get_symbol st = (Ok (PyStr "a"), snd (get_symbol st)))
    by reflexivity.
  split; [exact E|].
  exact (file_get_symbol_None_or_char st (snd (get_symbol st)) (PyStr "a") E).
Defined.

(** *** Reading leaves the files alone *)








(** *** A text file read character by character *)









(** *** A text file written and read back *)










(** ** Reading any stream to its end *)

Section Read_facts.

Context {St : Type} `{DataStream St}.

Lemma hands_out_split st l st' :
  hands_out st l st' ->
  forall k, exists st_k,
    hands_out st (firstn k l) st_k /\ hands_out st_k (skipn k l) st'.
Proof.
  induction 1 as [st | st s st1 l st' G Hs Hl IH]; intros k.
  - exists st. rewrite firstn_nil, skipn_nil. split; constructor.
  - destruct k as [|k].
    + exists st. split; [constructor|].
      now apply hands_out_cons with (st1 := st1).
    + destruct (IH k) as [st_k [H1 H2]]. exists st_k. split; [|exact H2].
      now apply hands_out_cons with (st1 := st1).
Qed.

Lemma read_blocks_hands_out (block_size : nat -> Z) :
  (forall i, (1 <= block_size i)%Z) ->
  forall (fuel : nat) (l : list Symbol) (st st' : St) (i : nat),
    hands_out st l st' -> get_symbol st' = (Ok PyNone, st') ->
    (length l < fuel)%nat ->
    exists blocks,
      read_blocks fuel block_size i st = (Ok (Some blocks), st') /\
      symbols_of blocks = l.
Proof.
  intros Hsize fuel. induction fuel as [|fuel IH];
    intros l st st' i Hh Hend Hfuel; [lia|].
  cbn [read_blocks]. unfold get_block. unfold bind at 1 2.
  pose proof (Hsize i) as Hn.
  destruct (Nat.le_gt_cases (Z.to_nat (block_size i)) (length l)) as [Hle|Hgt].
  - destruct (hands_out_split st l st' Hh (Z.to_nat (block_size i)))
      as [st_k [H1 H2]].
    destruct (get_block_loop_hands_out _ _ _ H1 (Z.to_nat (block_size i)) [])
      as [L _].
    rewrite L by (rewrite length_firstn; lia). cbn [app].
    destruct (firstn (Z.to_nat (block_size i)) l) as [|s data] eqn:F.
    { apply (f_equal (@length Symbol)) in F. rewrite length_firstn in F.
      simpl in F. lia. }
    unfold ret at 1.
    destruct (IH (skipn (Z.to_nat (block_size i)) l) st_k st' (S i) H2 Hend)
      as [blocks [R S']].
    { rewrite length_skipn. lia. }
    unfold bind. rewrite R. exists (mkDataBlock (s :: data) :: blocks).
    split; [reflexivity|].
    unfold symbols_of in *. cbn [map concat data_list].
    rewrite S', <- F. apply firstn_skipn.
  - destruct (get_block_loop_hands_out _ _ _ Hh (Z.to_nat (block_size i)) [])
      as [_ L].
    rewrite (L Hgt st' Hend). cbn [app].
    destruct l as [|s data].
    + exists []. split; reflexivity.
    + unfold ret at 1.
      destruct (IH [] st' st' (S i) (hands_out_nil st') Hend) as [blocks [R S']].
      { simpl in Hfuel. simpl. lia. }
      unfold bind. rewrite R. exists (mkDataBlock (s :: data) :: blocks).
      split; [reflexivity|].
      unfold symbols_of in *. cbn [map concat data_list].
      now rewrite S', app_nil_r.
Qed.

(** Whatever the stream: when it hands out the symbols [l] and from then
    on returns [None], blocks asked for with sizes of at least 1 until
    [get_block] returns [None] hold exactly [l], in order, and the reading
    ends within [length l + 1] requests. *)
Theorem read_blocks_reads_all
  (block_size : nat -> Z) (fuel : nat) (l : list Symbol) (st st' : St) :
  (forall i, (1 <= block_size i)%Z) ->
  hands_out st l st' -> get_symbol st' = (Ok PyNone, st') ->
  (length l < fuel)%nat ->
  exists blocks,
    read_blocks fuel block_size 0 st = (Ok (Some blocks), st') /\
    symbols_of blocks = l.
Proof.
  intros Hsize Hh Hend Hfuel.
  now apply read_blocks_hands_out.
Qed.

End Read_facts.

Lemma read_blocks_reads_all_witness :
  (forall i : nat, (1 <= (fun _ => 1) i)%Z) /\
  hands_out (mkListDataStream [PyInt 5; PyInt 6] 0) [PyInt 5; PyInt 6]
    (mkListDataStream [PyInt 5; PyInt 6] 2) /\
  get_symbol (mkListDataStream [PyInt 5; PyInt 6] 2)
  = (Ok PyNone, mkListDataStream [PyInt 5; PyInt 6] 2) /\
  (length [PyInt 5; PyInt 6] < 3)%nat /\
  exists blocks,
    read_blocks 3 (fun _ => 1%Z) 0 (mkListDataStream [PyInt 5; PyInt 6] 0)
    = (Ok (Some blocks), mkListDataStream [PyInt 5; PyInt 6] 2) /\
    symbols_of blocks = [PyInt 5; PyInt 6].
Proof.
  assert (H1 : forall i : nat, (1 <= (fun _ => 1) i)%Z) by (intros; simpl; lia).
  assert (Hh : hands_out (mkListDataStream [PyInt 5; PyInt 6] 0) [PyInt 5; PyInt 6]
                 (mkListDataStream [PyInt 5; PyInt 6] 2)).
  { eapply hands_out_cons; [reflexivity | reflexivity |].
    eapply hands_out_cons; [reflexivity | reflexivity |].
    apply hands_out_nil. }
  assert (Hf : (length [PyInt 5; PyInt 6] < 3)%nat) by (simpl; lia).
  split; [exact H1|]. split; [exact Hh|]. split; [reflexivity|].
  split; [exact Hf|].
  exact (read_blocks_reads_all (fun _ => 1%Z) 3 [PyInt 5; PyInt 6]
           (mkListDataStream [PyInt 5; PyInt 6] 0)
           (mkListDataStream [PyInt 5; PyInt 6] 2) H1 Hh eq_refl Hf).
Defined.

(** *** A text file read to its end, and written and read in one scope *)







(** *** Scopes one after the other *)

(** A scope that was entered leaves one more file object than it found,
    whatever its body did. *)
Lemma file_scope_handles (st st1 : FileState) (body : list Op) :
  __enter__ st = (Ok tt, st1) ->
  length (handles (world (snd (with_ (calls body) st))))
  = S (length (handles (world st))) /\
  trace (world (snd (with_ (calls body) st)))
  = trace (world st)
    ++ [EvOpen (length (handles (world st)));
        EvClose (length (handles (world st)))].
Proof.
  intros E.
  destruct (file_scope_outcome st st1 body E) as [r [st2 [fo2 [Ec [_ W]]]]].
  rewrite W. cbn [snd world handles trace]. split; [|reflexivity].
  rewrite length_set_nth.
  destruct (file_enter_outcome st) as [[e E'] | [st1' [fo [E' [_ [_ [Hh _]]]]]]];
    rewrite E' in E; inversion E; subst st1'.
  assert (Hin : in_scope (self st1) (trace (world st1))
                  (length (handles (world st1))) st1) by now repeat split.
  apply (file_calls_keeps _ _ _ body) in Hin. rewrite Ec in Hin.
  destruct Hin as [_ [_ Hn]]. cbn [snd] in Hn.
  rewrite Hn, Hh, length_app. simpl. lia.
Qed.

(** Two scopes in a row, on the same stream object or on another one, as
    in [test_file_data_stream]: the file object of the first scope is closed
    before the second scope opens its own, which it closes in turn; each is
    opened once and closed once, whatever the bodies do. *)
Theorem scopes_in_sequence
  (st : FileState) (s2 : FileDataStream) (body1 body2 : list Op) :
  is_Ok (fst (__enter__ st)) = true ->
  is_Ok (fst (__enter__
                (mkFileState (world (snd (with_ (calls body1) st))) s2))) = true ->
  trace (world (snd (with_ (calls body2)
                       (mkFileState (world (snd (with_ (calls body1) st))) s2))))
  = trace (world st)
    ++ [EvOpen (length (handles (world st)));
        EvClose (length (handles (world st)));
        EvOpen (S (length (handles (world st))));
        EvClose (S (length (handles (world st))))].
Proof.
  intros H1 H2.
  destruct (__enter__ st) as [[[]|e] st1] eqn:E1; [|discriminate].
  destruct (file_scope_handles st st1 body1 E1) as [Hn Ht].
  set (stB := mkFileState (world (snd (with_ (calls body1) st))) s2) in *.
  destruct (__enter__ stB) as [[[]|e] st1B] eqn:E2; [|discriminate].
  destruct (file_scope_handles stB st1B body2 E2) as [_ Ht2].
  rewrite Ht2. subst stB. cbn [world]. rewrite Ht, Hn, <- app_assoc.
  reflexivity.
Qed.

Lemma scopes_in_sequence_witness :
  let st := mkFileState empty_world
              (mkFileDataStream TextFileDataStream_ "tmp_file.txt" "w" None) in
  let s2 := mkFileDataStream TextFileDataStream_ "tmp_file.txt" "r" None in
  let body1 := [WriteBlock (mkDataBlock (chars "This_is_a_test_file"))] in
  let body2 := [GetBlock 4] in
  is_Ok (fst (__enter__ st)) = true /\
  is_Ok (fst (__enter__
                (mkFileState (world (snd (with_ (calls body1) st))) s2))) = true /\
  trace (world (snd (with_ (calls body2)
                       (mkFileState (world (snd (with_ (calls body1) st))) s2))))
  = [EvOpen 0; EvClose 0; EvOpen 1; EvClose 1].
Proof.
  intros st s2 body1 body2.
  split; [reflexivity|]. split; [reflexivity|].
  exact (scopes_in_sequence st s2 body1 body2 eq_refl eq_refl).
Defined.

(** ** Calls that never reach the stream *)

(** [get_block] with a size of 0 or below and [write_block] of an empty
    block return at once, on every stream and in every state, also on a
    file stream that was never entered or whose scope was left: the loops
    have nothing to run, so no primitive is called and nothing can raise. *)
Theorem untouched_calls_return
  (St : Type) (DS : DataStream St) (op : Op) (st : St) :
  touches_stream op = false -> call op st = (Ok VNone, st).
Proof.
  destruct op as [| |s|n|b]; cbn [touches_stream]; try discriminate.
  - intros Hn. apply Z.leb_gt in Hn. unfold call, bind.
    now rewrite get_block_nonpositive by lia.
  - intros Hb. unfold call, bind, write_block.
    destruct (data_list b); [reflexivity | discriminate].
Qed.

Lemma untouched_calls_return_witness :
  let st := mkFileState empty_world
              (FileStream.init TextFileDataStream_ "tmp_file.txt" None) in
  touches_stream (GetBlock (-3)) = false /\
  call (GetBlock (-3)) st = (Ok VNone, st) /\
  touches_stream (WriteBlock (mkDataBlock [])) = false /\
  call (WriteBlock (mkDataBlock [])) st = (Ok VNone, st).
Proof.
  intros st. split; [reflexivity|]. split.
  - exact (untouched_calls_return FileState _ (GetBlock (-3)) st eq_refl).
  - split; [reflexivity|].
    exact (untouched_calls_return FileState _ (WriteBlock (mkDataBlock [])) st
             eq_refl).
Defined.
